(** * Apollo REST facade (bow.py): response envelope, encoder and routing

    A shallow embedding of [src/bow.py].  Python values are an inductive
    type, dictionaries are association lists in insertion order, raising is
    a sum type, and the local variable [metadata] of each handler is the
    state of a small state-and-exception monad, so that the [except] clause
    sees the mutations done by the [try] block before the exception.

    What is modelled of the libraries the file imports:
    - [json] : the encoder walks native values and calls [default] on every
      other object; the textual layout (whitespace, member order chosen by
      [sort_keys]) is not modelled, a body is the JSON value it denotes;
    - [datetime] : [isoformat] of naive dates, datetimes and times, and the
      range check of [datetime + timedelta];
    - [numpy] : scalar objects carry their kind; they offer [item()], and
      [numpy.float64] is a subclass of the builtin [float];
    - [flask] : [jsonify], [Response], [make_response], [redirect],
      [url_for], the url map, the 404 handler and the fallback for an
      exception that leaves a view function. *)

From Stdlib Require Import ZArith List String Ascii Bool Lia Floats.
Import ListNotations.
Open Scope string_scope.
Open Scope Z_scope.
Set Warnings "-register-all".

(** ** Exceptions and results *)

(** An instance of a subclass of Python's [Exception]: its class name and
    what [str(e)] returns. *)
Record exn : Type := Exn { exc_class : string; exc_str : string }.

Inductive res (A : Type) : Type :=
| Ok (a : A)
| Raise (e : exn).
Arguments Ok {A} a.
Arguments Raise {A} e.

Definition res_bind {A B} (r : res A) (k : A -> res B) : res B :=
  match r with
  | Ok a => k a
  | Raise e => Raise e
  end.

Declare Scope res_scope.
Delimit Scope res_scope with res.
Notation "x <- c ;; k" := (res_bind c (fun x => k))
  (at level 61, c at next level, right associativity) : res_scope.

(** ** Values *)

(** JSON values: what a body denotes, and what [request.get_json()] parses. *)
Inductive json : Type :=
| JNull
| JBool (b : bool)
| JInt (n : Z)
| JFloat (f : float)
| JStr (s : string)
| JArr (l : list json)
| JObj (m : list (string * json)).

(** numpy scalar types.  The first block are the integer types named in
    [CustomizedEncoder.default], then the float types named there, then
    scalar types the encoder does not name. *)
Inductive np_type : Type :=
| np_int8 | np_int16 | np_int32 | np_int64
| np_uint8 | np_uint16 | np_uint32 | np_uint64
| np_float16 | np_float32 | np_float64
| np_longlong | np_ulonglong | np_longdouble | np_bool_.

(** Platform aliases (LP64): [np.int_], [np.intc], [np.intp], [np.float_]. *)
Definition np_int_ : np_type := np_int64.
Definition np_intc : np_type := np_int32.
Definition np_intp : np_type := np_int64.
Definition np_float_ : np_type := np_float64.

Definition np_type_eqb (a b : np_type) : bool :=
  match a, b with
  | np_int8, np_int8 | np_int16, np_int16 | np_int32, np_int32
  | np_int64, np_int64 | np_uint8, np_uint8 | np_uint16, np_uint16
  | np_uint32, np_uint32 | np_uint64, np_uint64 | np_float16, np_float16
  | np_float32, np_float32 | np_float64, np_float64
  | np_longlong, np_longlong | np_ulonglong, np_ulonglong
  | np_longdouble, np_longdouble | np_bool_, np_bool_ => true
  | _, _ => false
  end.

(** The payload of a numpy scalar. *)
Inductive np_payload : Type :=
| NpZ (n : Z)
| NpF (f : float)
| NpB (b : bool).

(** [datetime.date], naive [datetime.datetime], [datetime.timedelta]
    (normalised as CPython keeps it: days, seconds, microseconds). *)
Record date : Type := Date { d_year : Z; d_month : Z; d_day : Z }.
Record datetime : Type := Datetime {
  dt_year : Z; dt_month : Z; dt_day : Z;
  dt_hour : Z; dt_minute : Z; dt_second : Z; dt_microsecond : Z }.
Record time : Type := Time {
  t_hour : Z; t_minute : Z; t_second : Z; t_microsecond : Z }.
Record timedelta : Type := Timedelta {
  td_days : Z; td_seconds : Z; td_microseconds : Z }.

(** Objects that are not JSON-native. *)
Inductive pyobj : Type :=
| ONumpy (t : np_type) (p : np_payload)
| ODatetime (d : datetime)
| ODate (d : date)
| OTimedelta (d : timedelta)
| OOther (type_name : string).

(** Python values a handler can hold in [metadata]. *)
Inductive pyval : Type :=
| PNone
| PBool (b : bool)
| PInt (n : Z)
| PFloat (f : float)
| PStr (s : string)
| PList (l : list pyval)
| PDict (d : list (string * pyval))
| PObj (o : pyobj).

Definition pydict : Type := list (string * pyval).

(** What [json.loads] builds from a JSON value. *)
Fixpoint of_json (j : json) : pyval :=
  match j with
  | JNull => PNone
  | JBool b => PBool b
  | JInt n => PInt n
  | JFloat f => PFloat f
  | JStr s => PStr s
  | JArr l => PList (map of_json l)
  | JObj m => PDict (map (fun kv => (fst kv, of_json (snd kv))) m)
  end.

Definition of_json_dict (m : list (string * json)) : pydict :=
  map (fun kv => (fst kv, of_json (snd kv))) m.

(** ** Dictionaries: [d[k]], [d.get(k)], [d[k] = v] *)

Section Dict.
Context {V : Type}.

Fixpoint lookup (k : string) (d : list (string * V)) : option V :=
  match d with
  | [] => None
  | (k', v) :: r => if String.eqb k k' then Some v else lookup k r
  end.

(** [d[k] = v]: an existing key keeps its place, a new one goes last. *)
Fixpoint setitem (k : string) (v : V) (d : list (string * V))
  : list (string * V) :=
  match d with
  | [] => [(k, v)]
  | (k', v') :: r =>
      if String.eqb k k' then (k', v) :: r else (k', v') :: setitem k v r
  end.

Definition has_key (k : string) (d : list (string * V)) : bool :=
  match lookup k d with Some _ => true | None => false end.
End Dict.

(** ** [datetime]: formatting and arithmetic *)

Definition digit (n : Z) : ascii := ascii_of_nat (48 + Z.to_nat n).

(** Decimal digits of a non-negative integer, most significant first. *)
Fixpoint dec_loop (fuel : nat) (n : Z) (acc : string) : string :=
  match fuel with
  | O => acc
  | S fuel' =>
      let acc' := String (digit (n mod 10)) acc in
      if n / 10 =? 0 then acc' else dec_loop fuel' (n / 10) acc'
  end.

Definition decimal (n : Z) : string :=
  dec_loop (S (Z.to_nat (Z.log2 n))) n "".

Fixpoint zeros (k : nat) : string :=
  match k with
  | O => ""
  | S k' => String "0" (zeros k')
  end.

(** ["%0wd" % n] for [0 <= n]. *)
Definition format_d (w : nat) (n : Z) : string :=
  let s := decimal n in zeros (w - String.length s) ++ s.

(** [time.isoformat()]: ["%02d:%02d:%02d"], then [".%06d"] when the
    microseconds are not zero. *)
Definition time_isoformat (t : time) : string :=
  format_d 2 (t_hour t) ++ ":" ++ format_d 2 (t_minute t) ++ ":"
  ++ format_d 2 (t_second t)
  ++ (if t_microsecond t =? 0 then ""
      else "." ++ format_d 6 (t_microsecond t)).

(** [date.isoformat()]: ["%04d-%02d-%02d"]. *)
Definition date_isoformat (d : date) : string :=
  format_d 4 (d_year d) ++ "-" ++ format_d 2 (d_month d) ++ "-"
  ++ format_d 2 (d_day d).

(** [datetime.isoformat()] of a naive datetime, separator ["T"]. *)
Definition datetime_isoformat (d : datetime) : string :=
  date_isoformat (Date (dt_year d) (dt_month d) (dt_day d)) ++ "T"
  ++ time_isoformat
       (Time (dt_hour d) (dt_minute d) (dt_second d) (dt_microsecond d)).

(** [date.max.toordinal()]. *)
Definition MAXORDINAL : Z := 3652059.

Definition OverflowError : exn := Exn "OverflowError" "date value out of range".

(** [datetime.datetime.min + td]: the ordinal of [datetime.min] is 1 and its
    time is midnight, so the sum has ordinal [1 + td.days] and the time of
    day [td.seconds], [td.microseconds]; a sum outside
    [1 .. MAXORDINAL] raises.  The result is the ordinal of the date and
    the time, which is all [.time()] reads. *)
Definition datetime_min_add (td : timedelta) : res (Z * time) :=
  let ordinal := 1 + td_days td in
  if (0 <? ordinal) && (ordinal <=? MAXORDINAL) then
    let s := td_seconds td in
    Ok (ordinal, Time (s / 3600) (s mod 3600 / 60) (s mod 60)
                      (td_microseconds td))
  else Raise OverflowError.

Definition datetime_time (d : Z * time) : time := snd d.

(** ** numpy scalars *)

(** Results of the calls [default] makes: native scalars. *)
Inductive scalar : Type :=
| SBool (b : bool)
| SInt (n : Z)
| SFloat (f : float)
| SStr (s : string).

Definition json_of_scalar (s : scalar) : json :=
  match s with
  | SBool b => JBool b
  | SInt n => JInt n
  | SFloat f => JFloat f
  | SStr s => JStr s
  end.

Definition np_type_name (t : np_type) : string :=
  match t with
  | np_int8 => "int8" | np_int16 => "int16" | np_int32 => "int32"
  | np_int64 => "int64" | np_uint8 => "uint8" | np_uint16 => "uint16"
  | np_uint32 => "uint32" | np_uint64 => "uint64"
  | np_float16 => "float16" | np_float32 => "float32"
  | np_float64 => "float64" | np_longlong => "longlong"
  | np_ulonglong => "ulonglong" | np_longdouble => "longdouble"
  | np_bool_ => "bool_"
  end.

Definition type_name (o : pyobj) : string :=
  match o with
  | ONumpy t _ => np_type_name t
  | ODatetime _ => "datetime"
  | ODate _ => "date"
  | OTimedelta _ => "timedelta"
  | OOther n => n
  end.

(** [numpy.generic.item()]: the payload as a native scalar. *)
Definition np_item (p : np_payload) : scalar :=
  match p with
  | NpZ n => SInt n
  | NpF f => SFloat f
  | NpB b => SBool b
  end.

(** The methods of a numpy scalar that [default] looks up by name.
    [numpy.generic] has [item]; [asscalar] is a function of the [numpy]
    module, not a method of its scalars. *)
Definition np_scalar_method (name : string) : option (np_payload -> scalar) :=
  if String.eqb name "item" then Some np_item else None.

Definition AttributeError (ty attr : string) : exn :=
  Exn "AttributeError"
      ("'" ++ ty ++ "' object has no attribute '" ++ attr ++ "'").

(** [obj.name()] on an object of the encoder. *)
Definition call_method (o : pyobj) (name : string) : res scalar :=
  match o with
  | ONumpy t p =>
      match np_scalar_method name with
      | Some f => Ok (f p)
      | None => Raise (AttributeError ("numpy." ++ np_type_name t) name)
      end
  | _ => Raise (AttributeError (type_name o) name)
  end.

(** [isinstance(obj, (t1, ..., tn))] for numpy scalar types. *)
Definition isinstance_np (o : pyobj) (ts : list np_type) : bool :=
  match o with
  | ONumpy t _ => existsb (np_type_eqb t) ts
  | _ => false
  end.

(** ** The encoders *)

Definition TypeError (msg : string) : exn := Exn "TypeError" msg.

(** [json.JSONEncoder.default]: always raises. *)
Definition JSONEncoder_default (o : pyobj) : res scalar :=
  Raise (TypeError ("Object of type " ++ type_name o
                    ++ " is not JSON serializable")).

(** [CustomizedEncoder.default] (bow.py, lines 21-35).  The last line calls
    the bound method [super(...).default] with [self] again, which is one
    positional argument too many. *)
Definition CustomizedEncoder_default (obj : pyobj) : res scalar :=
  if isinstance_np obj [np_int_; np_intc; np_intp; np_int8; np_int16;
                        np_int32; np_int64; np_uint8; np_uint16; np_uint32;
                        np_uint64]
  then call_method obj "item"
  else if isinstance_np obj [np_float_; np_float16; np_float32; np_float64]
  then call_method obj "asscalar"
  else match obj with
       | ODatetime d => Ok (SStr (datetime_isoformat d))
       | ODate d => Ok (SStr (date_isoformat d))
       | OTimedelta td =>
           (r <- datetime_min_add td ;;
            Ok (SStr (time_isoformat (datetime_time r))))%res
       | _ => Raise (TypeError
           "default() takes 2 positional arguments but 3 were given")
       end.

(** [numpy.float64] derives from the builtin [float]: the encoder emits it
    as a float and never passes it to [default]. *)
Definition as_builtin_float (o : pyobj) : option float :=
  match o with
  | ONumpy np_float64 (NpF f) => Some f
  | _ => None
  end.

(** [JSONEncoder.iterencode]: native values are emitted, every other object
    goes through [default] and the scalar it returns is emitted. *)
Fixpoint iterencode (default : pyobj -> res scalar) (v : pyval) : res json :=
  match v with
  | PNone => Ok JNull
  | PBool b => Ok (JBool b)
  | PInt n => Ok (JInt n)
  | PFloat f => Ok (JFloat f)
  | PStr s => Ok (JStr s)
  | PList l =>
      (js <- (fix items (l : list pyval) : res (list json) :=
                match l with
                | [] => Ok []
                | x :: r =>
                    j <- iterencode default x ;;
                    js <- items r ;;
                    Ok (j :: js)
                end) l ;;
       Ok (JArr js))%res
  | PDict d =>
      (m <- (fix members (d : list (string * pyval))
               : res (list (string * json)) :=
               match d with
               | [] => Ok []
               | (k, x) :: r =>
                   j <- iterencode default x ;;
                   m <- members r ;;
                   Ok ((k, j) :: m)
               end) d ;;
       Ok (JObj m))%res
  | PObj o =>
      match as_builtin_float o with
      | Some f => Ok (JFloat f)
      | None => (s <- default o ;; Ok (json_of_scalar s))%res
      end
  end.

(** [json.dumps(obj)]: the standard encoder. *)
Definition json_dumps (obj : pyval) : res json :=
  iterencode JSONEncoder_default obj.

(** [flask.json.dumps(obj)] under [app.json_encoder = CustomizedEncoder]
    (bow.py, line 38). *)
Definition flask_json_dumps (obj : pyval) : res json :=
  iterencode CustomizedEncoder_default obj.

(** ** Flask responses *)

Inductive body : Type :=
| BJson (j : json)
| BText (s : string).

Record response : Type := mkResponse {
  status_code : Z;
  resp_body : body;
  mimetype : string;
  headers : list (string * string) }.

Definition KeyError (k : string) : exn := Exn "KeyError" ("'" ++ k ++ "'").

(** [d[k]] as an expression. *)
Definition getitem (k : string) (d : pydict) : res pyval :=
  match lookup k d with
  | Some v => Ok v
  | None => Raise (KeyError k)
  end.

(** [Response(text, status=..., mimetype=...)], where [text] is the output of
    [json.dumps]; the status has to be an integer. *)
Definition Response (text : json) (status : pyval) (mime : string)
  : res response :=
  match status with
  | PInt n => Ok (mkResponse n (BJson text) mime [])
  | _ => Raise (TypeError "Invalid status argument")
  end.

(** [jsonify(d)]: the app's encoder, status 200. *)
Definition jsonify (d : pydict) : res response :=
  (j <- flask_json_dumps (PDict d) ;;
   Ok (mkResponse 200 (BJson j) "application/json" []))%res.

(** [redirect(location)]: status 302 and a [Location] header. *)
Definition redirect (location : string) : response :=
  mkResponse 302 (BText "Redirecting...") "text/html"
             [("Location", location)].

(** [make_response(rv)]: a view function that returned [None] is an error. *)
Definition make_response (rv : option response) : res response :=
  match rv with
  | Some r => Ok r
  | None => Raise (TypeError "The view function did not return a valid response.")
  end.

(** [resp.headers[header] = value]. *)
Definition set_header (header value : string) (r : response) : response :=
  mkResponse (status_code r) (resp_body r) (mimetype r)
             (setitem header value (headers r)).

Definition json_body (r : response) : option (list (string * json)) :=
  match resp_body r with
  | BJson (JObj m) => Some m
  | _ => None
  end.

(** ** Requests *)

(** The methods a client sends.  HEAD and OPTIONS, which Flask answers on
    its own, are left out. *)
Inductive http_method : Type := GET | POST | PUT | DELETE | PATCH.

Definition method_eqb (a b : http_method) : bool :=
  match a, b with
  | GET, GET | POST, POST | PUT, PUT | DELETE, DELETE | PATCH, PATCH => true
  | _, _ => false
  end.

(** A request: its method, its path, and what [request.get_json()] gives
    for its body (the parsed value, or the exception of a malformed one). *)
Record request : Type := Request {
  req_method : http_method;
  req_path : string;
  get_json : res json }.

(** ** The state-and-exception monad of a handler body

    The state is the dictionary bound to [metadata]. *)

Definition M (A : Type) : Type := pydict -> res A * pydict.

Definition ret {A} (a : A) : M A := fun md => (Ok a, md).

Definition bind {A B} (c : M A) (k : A -> M B) : M B :=
  fun md =>
    match c md with
    | (Ok a, md') => k a md'
    | (Raise e, md') => (Raise e, md')
    end.

Definition lift {A} (r : res A) : M A := fun md => (r, md).

(** Reading [metadata]. *)
Definition get : M pydict := fun md => (Ok md, md).

(** [metadata = d]. *)
Definition put (d : pydict) : M unit := fun _ => (Ok tt, d).

(** [metadata[k] = v]. *)
Definition assign (k : string) (v : pyval) : M unit :=
  fun md => (Ok tt, setitem k v md).

(** [try: body except Exception as e: handler(e)]. *)
Definition try_except {A} (body : M A) (handler : exn -> M A) : M A :=
  fun md =>
    match body md with
    | (Ok a, md') => (Ok a, md')
    | (Raise e, md') => handler e md'
    end.

Declare Scope M_scope.
Delimit Scope M_scope with M.
Notation "x <- c ;; k" := (bind c (fun x => k))
  (at level 61, c at next level, right associativity) : M_scope.
Notation "c ;; k" := (bind c (fun _ => k))
  (at level 61, right associativity) : M_scope.

(** ** Constants of bow.py *)

Definition VERSION : float := 1%float.
Definition OK_STATUS : Z := 200.
Definition OK_CREATE_STATUS : Z := 201.
Definition DEF_ERROR_CODE : Z := 500.

(** [str(e)]. *)
Definition str (e : exn) : string := exc_str e.

(** Type names of native values, for the message of a failed attribute
    lookup. *)
Definition py_type_name (v : pyval) : string :=
  match v with
  | PNone => "NoneType"
  | PBool _ => "bool"
  | PInt _ => "int"
  | PFloat _ => "float"
  | PStr _ => "str"
  | PList _ => "list"
  | PDict _ => "dict"
  | PObj o => type_name o
  end.

(** [v.get(k, default)]: only a dictionary has [get]. *)
Definition dict_get (v : pyval) (k : string) (default : pyval) : res pyval :=
  match v with
  | PDict d =>
      Ok (match lookup k d with Some x => x | None => default end)
  | _ => Raise (AttributeError (py_type_name v) "get")
  end.

(** ** The external collaborators *)

(** Modelled from the spec: the modules [quiver], [quiver.unpack_params] and
    [admix] are imported by bow.py and are not part of the sources.  The spec
    gives their contracts only: [unpack.table], [unpack.join] and
    [unpack.union] turn the inbound JSON into a mapping of keyword
    parameters (fields of the request, checked for presence, [null] by
    default), [quiver.get_table], [quiver.join], [quiver.union] and
    [admix.create_table] take the keyword parameters to a result.  Each of
    them may raise. *)
Record backend : Type := Backend {
  unpack_table : json -> res (list (string * json));
  unpack_join : json -> res (list (string * json));
  unpack_union : json -> res (list (string * json));
  quiver_get_table : pydict -> res pyval;
  quiver_join : pydict -> res pyval;
  quiver_union : pydict -> res pyval;
  admix_create_table : pydict -> res pyval }.

(** ** The handlers *)

Section Handlers.
Variable B : backend.

(** The type of a view function: it may raise, and it may fall off its
    end and return [None]. *)
Definition view : Type := request -> res (option response).

(** [add_response_headers(headers)(f)] (bow.py, lines 49-60). *)
Definition add_response_headers (hs : list (string * string)) (f : view)
  : request -> res response :=
  fun req =>
    (rv <- f req ;;
     resp <- make_response rv ;;
     Ok (fold_left (fun r hv => set_header (fst hv) (snd hv) r) hs resp))%res.

(** The url map, in the order of the [@app.route] decorators: rule,
    endpoint, methods. *)
Definition url_map : list (string * (string * list http_method)) :=
  [ ("/", ("root", [GET]));
    ("/version", ("version", [GET]));
    ("/about", ("about", [GET]));
    ("/get-table", ("get_table", [POST]));
    ("/join", ("join", [POST]));
    ("/union", ("union", [POST]));
    ("/create-table", ("create_table", [POST])) ].

(** [url_for(endpoint)]: the rule registered for the endpoint. *)
Definition url_for (endpoint : string) : res string :=
  match find (fun r => String.eqb (fst (snd r)) endpoint) url_map with
  | Some r => Ok (fst r)
  | None => Raise (Exn "BuildError"
                       ("Could not build url for endpoint '" ++ endpoint
                        ++ "'."))
  end.

(** [root] (lines 65-67). *)
Definition root_view : view :=
  fun _ => (target <- url_for "about" ;; Ok (Some (redirect target)))%res.

(** [version] (lines 72-79). *)
Definition version_view : view :=
  fun _ =>
    let version := [ ("status", PInt OK_STATUS);
                     ("api_name", PStr "Apollo");
                     ("version", PFloat VERSION);
                     ("license", PStr "Apache 2.0") ] in
    (r <- jsonify version ;; Ok (Some r))%res.

(** [about] (lines 84-96). *)
Definition about_view : view :=
  fun _ =>
    let about :=
      [ ("api_name", PStr "Apollo");
        ("version", PFloat VERSION);
        ("author_name", PStr "Juan A. Aguilar-Jiménez");
        ("author_email", PStr "juanantonioaguilar@gmail.com");
        ("project_repository",
         PStr "https://github.com/jasset75/apollo.github");
        ("documentation", PStr "http://jasset75.github.io/apollo");
        ("license", PStr "Apache 2.0") ] in
    (r <- jsonify about ;; Ok (Some r))%res.

(** [page_not_found] (lines 99-111): the argument is not used, and the
    handler has no header decorator. *)
Definition page_not_found (e : exn) : res response :=
  let error_api_404 :=
    [ ("status", PInt 404);
      ("error_message", PStr "Apollo API endpoint not found.");
      ("api_name", PStr "Apollo");
      ("version", PFloat VERSION);
      ("author", PStr "juanantonioaguilar@gmail.com");
      ("license", PStr "Apache 2.0") ] in
  jsonify error_api_404.

(** [get_table] (lines 116-142). *)
Definition get_table_view : view :=
  fun req =>
    fst (try_except
      (if method_eqb (req_method req) POST then
         request_json <- lift (get_json req) ;;
         params <- lift (unpack_table B request_json) ;;
         put (of_json_dict params) ;;
         metadata <- get ;;
         data <- lift (quiver_get_table B metadata) ;;
         assign "data" data ;;
         assign "success" (PBool true) ;;
         assign "status" (PInt OK_STATUS) ;;
         metadata <- get ;;
         r <- lift (jsonify metadata) ;;
         ret (Some r)
       else ret None)
      (fun e =>
         assign "status" (PInt DEF_ERROR_CODE) ;;
         assign "error_message" (PStr (str e)) ;;
         metadata <- get ;;
         text <- lift (json_dumps (PDict metadata)) ;;
         status <- lift (getitem "status" metadata) ;;
         r <- lift (Response text status "application/json") ;;
         ret (Some r))
      [])%M.

(** [join] (lines 147-172). *)
Definition join_view : view :=
  fun req =>
    fst (try_except
      (if method_eqb (req_method req) POST then
         request_json <- lift (get_json req) ;;
         params <- lift (unpack_join B request_json) ;;
         put (of_json_dict params) ;;
         assign "format" (PStr "dict") ;;
         metadata <- get ;;
         data <- lift (quiver_join B metadata) ;;
         assign "data" data ;;
         assign "status" (PInt OK_STATUS) ;;
         assign "success" (PBool true) ;;
         metadata <- get ;;
         r <- lift (jsonify metadata) ;;
         ret (Some r)
       else ret None)
      (fun e =>
         assign "status" (PInt DEF_ERROR_CODE) ;;
         assign "error_message" (PStr (str e)) ;;
         metadata <- get ;;
         text <- lift (json_dumps (PDict metadata)) ;;
         status <- lift (getitem "status" metadata) ;;
         r <- lift (Response text status "application/json") ;;
         ret (Some r))
      [])%M.

(** [union] (lines 177-202). *)
Definition union_view : view :=
  fun req =>
    fst (try_except
      (if method_eqb (req_method req) POST then
         request_json <- lift (get_json req) ;;
         params <- lift (unpack_union B request_json) ;;
         put (of_json_dict params) ;;
         assign "format" (PStr "dict") ;;
         metadata <- get ;;
         data <- lift (quiver_union B metadata) ;;
         assign "data" data ;;
         assign "success" (PBool true) ;;
         assign "status" (PInt OK_STATUS) ;;
         metadata <- get ;;
         r <- lift (jsonify metadata) ;;
         ret (Some r)
       else ret None)
      (fun e =>
         assign "status" (PInt DEF_ERROR_CODE) ;;
         assign "error_message" (PStr (str e)) ;;
         metadata <- get ;;
         text <- lift (json_dumps (PDict metadata)) ;;
         status <- lift (getitem "status" metadata) ;;
         r <- lift (Response text status "application/json") ;;
         ret (Some r))
      [])%M.

(** [create_table] (lines 207-235): the parameters are read from the
    request in the handler, and the success reply is built with
    [json.dumps] and [Response] as well. *)
Definition create_table_view : view :=
  fun req =>
    fst (try_except
      (if method_eqb (req_method req) POST then
         request_json <- lift (get_json req) ;;
         keyspace <- lift (dict_get (of_json request_json) "keyspace" PNone) ;;
         assign "keyspace" keyspace ;;
         tablename <- lift (dict_get (of_json request_json) "tablename" PNone) ;;
         assign "tablename" tablename ;;
         columns <- lift (dict_get (of_json request_json) "columns" PNone) ;;
         assign "columns" columns ;;
         metadata <- get ;;
         data <- lift (admix_create_table B metadata) ;;
         assign "data" data ;;
         assign "success" (PBool true) ;;
         assign "status" (PInt OK_CREATE_STATUS) ;;
         metadata <- get ;;
         text <- lift (json_dumps (PDict metadata)) ;;
         status <- lift (getitem "status" metadata) ;;
         r <- lift (Response text status "application/json") ;;
         ret (Some r)
       else ret None)
      (fun e =>
         assign "status" (PInt DEF_ERROR_CODE) ;;
         assign "error_message" (PStr (str e)) ;;
         metadata <- get ;;
         text <- lift (json_dumps (PDict metadata)) ;;
         status <- lift (getitem "status" metadata) ;;
         r <- lift (Response text status "application/json") ;;
         ret (Some r))
      [])%M.

(** The decorated view functions, as [@app.route] registers them. *)
Definition root := add_response_headers [("Location", "/about")] root_view.
Definition version :=
  add_response_headers [("Location", "/version")] version_view.
Definition about := add_response_headers [("Location", "/about")] about_view.
Definition get_table :=
  add_response_headers [("Location", "/get-table")] get_table_view.
Definition join := add_response_headers [("Location", "/join")] join_view.
Definition union := add_response_headers [("Location", "/union")] union_view.
Definition create_table :=
  add_response_headers [("Location", "/create-table")] create_table_view.

Definition view_functions (endpoint : string)
  : option (request -> res response) :=
  if String.eqb endpoint "root" then Some root
  else if String.eqb endpoint "version" then Some version
  else if String.eqb endpoint "about" then Some about
  else if String.eqb endpoint "get_table" then Some get_table
  else if String.eqb endpoint "join" then Some join
  else if String.eqb endpoint "union" then Some union
  else if String.eqb endpoint "create_table" then Some create_table
  else None.

(** ** Dispatch *)

Inductive route_match : Type :=
| Matched (endpoint : string)
| NotFound
| MethodNotAllowed.

(** The rules whose path is the request's; among them the first that
    accepts the method. *)
Definition match_request (req : request) : route_match :=
  match filter (fun r => String.eqb (fst r) (req_path req)) url_map with
  | [] => NotFound
  | rules =>
      match find (fun r => existsb (method_eqb (req_method req))
                                   (snd (snd r))) rules with
      | Some r => Matched (fst (snd r))
      | None => MethodNotAllowed
      end
  end.

(** The reply werkzeug builds for an HTTP error that has no handler. *)
Definition http_error_response (code : Z) (name : string) : response :=
  mkResponse code (BText name) "text/html" [].

(** [Flask.full_dispatch_request]: the view function of the matched rule;
    404 goes to [page_not_found], registered with [@app.errorhandler(404)];
    405 has no handler. *)
Definition full_dispatch_request (req : request) : res response :=
  match match_request req with
  | Matched endpoint =>
      match view_functions endpoint with
      | Some f => f req
      | None => Raise (KeyError endpoint)
      end
  | NotFound => page_not_found (Exn "NotFound" "404 Not Found")
  | MethodNotAllowed => Ok (http_error_response 405 "Method Not Allowed")
  end.

(** [Flask.wsgi_app]: an exception that leaves the dispatch becomes the
    framework's own 500 page. *)
Definition wsgi_app (req : request) : response :=
  match full_dispatch_request req with
  | Ok r => r
  | Raise _ => http_error_response 500 "Internal Server Error"
  end.

End Handlers.

(** ** The encoder on lists and dictionaries *)

Definition encode_items (default : pyobj -> res scalar)
  : list pyval -> res (list json) :=
  fix items (l : list pyval) : res (list json) :=
    match l with
    | [] => Ok []
    | x :: r =>
        (j <- iterencode default x ;; js <- items r ;; Ok (j :: js))%res
    end.

Definition encode_members (default : pyobj -> res scalar)
  : list (string * pyval) -> res (list (string * json)) :=
  fix members (d : list (string * pyval)) : res (list (string * json)) :=
    match d with
    | [] => Ok []
    | (k, x) :: r =>
        (j <- iterencode default x ;; m <- members r ;; Ok ((k, j) :: m))%res
    end.

(** A value the encoder accepts. *)
Definition encodable (default : pyobj -> res scalar) (v : pyval) : Prop :=
  exists j, iterencode default v = Ok j.

(** ** The four POST handlers in one shape

    The handlers repeat one pattern.  Each is shown below to be equal to
    [handler_nf], instantiated with what differs: where the parameters come
    from, which backend operation is called, the assignments after the
    call, and how the success reply is built. *)

Inductive post_endpoint : Type :=
| EP_get_table | EP_join | EP_union | EP_create_table.

(** The [except] clause shared by the four handlers, run on the dictionary
    [metadata] is bound to when the exception arrives. *)
Definition except_clause (e : exn) (md : pydict) : res (option response) :=
  let md' := setitem "error_message" (PStr (str e))
               (setitem "status" (PInt DEF_ERROR_CODE) md) in
  (text <- json_dumps (PDict md') ;;
   status <- getitem "status" md' ;;
   r <- Response text status "application/json" ;;
   Ok (Some r))%res.

(** The parameters [create_table] reads from the request with [.get]. *)
Definition create_table_params (j : json) : res (list (string * json)) :=
  match j with
  | JObj m =>
      let field k := match lookup k m with Some x => x | None => JNull end in
      Ok [ ("keyspace", field "keyspace");
           ("tablename", field "tablename");
           ("columns", field "columns") ]
  | _ => Raise (AttributeError (py_type_name (of_json j)) "get")
  end.

Section EndpointShape.
Variable B : backend.

Definition endpoint_view (h : post_endpoint) : view :=
  match h with
  | EP_get_table => get_table_view B
  | EP_join => join_view B
  | EP_union => union_view B
  | EP_create_table => create_table_view B
  end.

Definition endpoint (h : post_endpoint) : request -> res response :=
  match h with
  | EP_get_table => get_table B
  | EP_join => join B
  | EP_union => union B
  | EP_create_table => create_table B
  end.

Definition endpoint_rule (h : post_endpoint) : string :=
  match h with
  | EP_get_table => "/get-table"
  | EP_join => "/join"
  | EP_union => "/union"
  | EP_create_table => "/create-table"
  end.

(** Unpacking: the request's JSON to the parameter mapping. *)
Definition endpoint_unpack (h : post_endpoint)
  : json -> res (list (string * json)) :=
  match h with
  | EP_get_table => unpack_table B
  | EP_join => unpack_join B
  | EP_union => unpack_union B
  | EP_create_table => create_table_params
  end.

(** [/join] and [/union] add [format='dict'] before the call. *)
Definition adds_format (h : post_endpoint) : bool :=
  match h with
  | EP_join | EP_union => true
  | _ => false
  end.

Definition endpoint_params (h : post_endpoint) (j : json)
  : res (list (string * json)) :=
  (p <- endpoint_unpack h j ;;
   Ok (if adds_format h then setitem "format" (JStr "dict") p else p))%res.

(** The backend operation, called with [**metadata]. *)
Definition endpoint_call (h : post_endpoint) : pydict -> res pyval :=
  match h with
  | EP_get_table => quiver_get_table B
  | EP_join => quiver_join B
  | EP_union => quiver_union B
  | EP_create_table => admix_create_table B
  end.

(** The assignments between the call and the reply. *)
Definition endpoint_finish (h : post_endpoint) (data : pyval) (md : pydict)
  : pydict :=
  match h with
  | EP_get_table | EP_union =>
      setitem "status" (PInt OK_STATUS)
        (setitem "success" (PBool true) (setitem "data" data md))
  | EP_join =>
      setitem "success" (PBool true)
        (setitem "status" (PInt OK_STATUS) (setitem "data" data md))
  | EP_create_table =>
      setitem "status" (PInt OK_CREATE_STATUS)
        (setitem "success" (PBool true) (setitem "data" data md))
  end.

(** The encoder of the success reply. *)
Definition endpoint_dumps (h : post_endpoint) : pyval -> res json :=
  match h with
  | EP_create_table => json_dumps
  | _ => flask_json_dumps
  end.

(** The success reply. *)
Definition endpoint_reply (h : post_endpoint) (md : pydict) : res response :=
  match h with
  | EP_create_table =>
      (text <- json_dumps (PDict md) ;;
       status <- getitem "status" md ;;
       Response text status "application/json")%res
  | _ => jsonify md
  end.

Definition handler_nf (h : post_endpoint) (req : request)
  : res (option response) :=
  match get_json req with
  | Raise e => except_clause e []
  | Ok j =>
      match endpoint_params h j with
      | Raise e => except_clause e []
      | Ok p =>
          match endpoint_call h (of_json_dict p) with
          | Raise e => except_clause e (of_json_dict p)
          | Ok data =>
              let md := endpoint_finish h data (of_json_dict p) in
              match endpoint_reply h md with
              | Ok r => Ok (Some r)
              | Raise e => except_clause e md
              end
          end
      end
  end.

End EndpointShape.

(** ** What a handler replies

    [reply_of] computes, without the monad, the reply of a POST handler
    from the outcomes of unpacking, of the backend call and of encoding
    the backend's result. *)

(** The error envelope over the parameters [p] held when [e] arrived. *)
Definition error_envelope (e : exn) (p : list (string * json))
  : list (string * json) :=
  setitem "error_message" (JStr (str e))
    (setitem "status" (JInt DEF_ERROR_CODE) p).

Definition error_response (e : exn) (p : list (string * json)) : response :=
  mkResponse DEF_ERROR_CODE (BJson (JObj (error_envelope e p)))
             "application/json" [].

(** The success envelope: the parameters, then the encoded result and the
    two constants, assigned in the handler's order. *)
Definition success_envelope (h : post_endpoint) (data : json)
  (p : list (string * json)) : list (string * json) :=
  match h with
  | EP_get_table | EP_union =>
      setitem "status" (JInt OK_STATUS)
        (setitem "success" (JBool true) (setitem "data" data p))
  | EP_join =>
      setitem "success" (JBool true)
        (setitem "status" (JInt OK_STATUS) (setitem "data" data p))
  | EP_create_table =>
      setitem "status" (JInt OK_CREATE_STATUS)
        (setitem "success" (JBool true) (setitem "data" data p))
  end.

Definition success_status (h : post_endpoint) : Z :=
  match h with
  | EP_create_table => OK_CREATE_STATUS
  | _ => OK_STATUS
  end.

Definition success_response (h : post_endpoint) (data : json)
  (p : list (string * json)) : response :=
  mkResponse (success_status h) (BJson (JObj (success_envelope h data p)))
             "application/json" [].

Section ReplyOf.
Variable B : backend.

Definition reply_of (h : post_endpoint) (req : request) : res response :=
  match get_json req with
  | Raise e => Ok (error_response e [])
  | Ok j =>
      match endpoint_params B h j with
      | Raise e => Ok (error_response e [])
      | Ok p =>
          match endpoint_call B h (of_json_dict p) with
          | Raise e => Ok (error_response e p)
          | Ok data =>
              match endpoint_dumps h data with
              | Ok x => Ok (success_response h x p)
              | Raise e => Raise e
              end
          end
      end
  end.

End ReplyOf.

(** ** Induction over nested values *)

Section PyvalInd.
Variable P : pyval -> Prop.
Hypothesis HNone : P PNone.
Hypothesis HBool : forall b, P (PBool b).
Hypothesis HInt : forall n, P (PInt n).
Hypothesis HFloat : forall f, P (PFloat f).
Hypothesis HStr : forall s, P (PStr s).
Hypothesis HList : forall l, Forall P l -> P (PList l).
Hypothesis HDict : forall d, Forall (fun kv => P (snd kv)) d -> P (PDict d).
Hypothesis HObj : forall o, P (PObj o).

Fixpoint pyval_nested_ind (v : pyval) : P v :=
  match v with
  | PNone => HNone
  | PBool b => HBool b
  | PInt n => HInt n
  | PFloat f => HFloat f
  | PStr s => HStr s
  | PList l =>
      HList l ((fix go (l : list pyval) : Forall P l :=
                  match l with
                  | [] => Forall_nil _
                  | x :: r => Forall_cons _ (pyval_nested_ind x) (go r)
                  end) l)
  | PDict d =>
      HDict d ((fix go (d : list (string * pyval))
                  : Forall (fun kv => P (snd kv)) d :=
                  match d with
                  | [] => Forall_nil _
                  | kv :: r =>
                      Forall_cons _ (pyval_nested_ind (snd kv)) (go r)
                  end) d)
  | PObj o => HObj o
  end.
End PyvalInd.

Section JsonInd.
Variable P : json -> Prop.
Hypothesis HNull : P JNull.
Hypothesis HBool : forall b, P (JBool b).
Hypothesis HInt : forall n, P (JInt n).
Hypothesis HFloat : forall f, P (JFloat f).
Hypothesis HStr : forall s, P (JStr s).
Hypothesis HArr : forall l, Forall P l -> P (JArr l).
Hypothesis HObj : forall m, Forall (fun kv => P (snd kv)) m -> P (JObj m).

Fixpoint json_nested_ind (j : json) : P j :=
  match j with
  | JNull => HNull
  | JBool b => HBool b
  | JInt n => HInt n
  | JFloat f => HFloat f
  | JStr s => HStr s
  | JArr l =>
      HArr l ((fix go (l : list json) : Forall P l :=
                 match l with
                 | [] => Forall_nil _
                 | x :: r => Forall_cons _ (json_nested_ind x) (go r)
                 end) l)
  | JObj m =>
      HObj m ((fix go (m : list (string * json))
                 : Forall (fun kv => P (snd kv)) m :=
                 match m with
                 | [] => Forall_nil _
                 | kv :: r =>
                     Forall_cons _ (json_nested_ind (snd kv)) (go r)
                 end) m)
  end.
End JsonInd.

(** ** Vocabulary of the statements *)

(** The exception [e] is raised while the handler [h] unpacks the request
    (reading its JSON, building the parameters) or calls the backend. *)
Inductive raised_before_reply (B : backend) (h : post_endpoint)
  (req : request) (e : exn) : Prop :=
| raised_in_get_json :
    get_json req = Raise e -> raised_before_reply B h req e
| raised_in_unpack j :
    get_json req = Ok j ->
    endpoint_unpack B h j = Raise e ->
    raised_before_reply B h req e
| raised_in_call j p :
    get_json req = Ok j ->
    endpoint_params B h j = Ok p ->
    endpoint_call B h (of_json_dict p) = Raise e ->
    raised_before_reply B h req e.







(** The contract of unpacking that the envelope relies on: the keyword
    parameters do not use the envelope's own keys. *)
Definition unpack_avoids_envelope_keys (B : backend) (h : post_endpoint)
  : Prop :=
  forall j p,
    endpoint_unpack B h j = Ok p ->
    has_key "data" p = false
    /\ has_key "success" p = false
    /\ has_key "error_message" p = false.

(** A backend to run the handlers on: unpacking reads the fields
    [keyspace], [tablename], [columns]; the table operations need a keyspace
    that is a string and return a row holding a numpy integer and a date;
    table creation returns [None]. *)
Definition demo_operation (md : pydict) : res pyval :=
  match lookup "keyspace" md with
  | Some (PStr _) =>
      Ok (PList [PDict [("id", PObj (ONumpy np_int64 (NpZ 7)));
                        ("day", PObj (ODate (Date 2018 5 17)))]])
  | _ => Raise (Exn "ValueError" "keyspace is required")
  end.

Definition demo_backend : backend :=
  Backend create_table_params create_table_params create_table_params
          demo_operation demo_operation demo_operation
          (fun md =>
             match lookup "keyspace" md with
             | Some (PStr _) => Ok PNone
             | _ => Raise (Exn "ValueError" "keyspace is required")
             end).

Definition demo_body : json :=
  JObj [("keyspace", JStr "examples"); ("tablename", JStr "mock_data")].

(** The value of the [Location] header of a response. *)
Definition location (r : response) : option string :=
  lookup "Location" (headers r).

(** The failure path as the specification words it: the envelope is
    serialized with the encoder of the success path, the customized encoder
    installed on the app.  To be compared with [except_clause], which is
    what the handlers do. *)
Definition except_clause_same_encoder (e : exn) (md : pydict)
  : res (option response) :=
  let md' := setitem "error_message" (PStr (str e))
               (setitem "status" (PInt DEF_ERROR_CODE) md) in
  (text <- flask_json_dumps (PDict md') ;;
   status <- getitem "status" md' ;;
   r <- Response text status "application/json" ;;
   Ok (Some r))%res.

(** A backend whose table creation reports the number of affected rows as
    a numpy integer. *)
Definition counting_backend : backend :=
  Backend create_table_params create_table_params create_table_params
          demo_operation demo_operation demo_operation
          (fun _ => Ok (PObj (ONumpy np_int64 (NpZ 1)))).

(** ** ISO-8601 shapes

    The shapes the specification names, as recognisers over strings:
    [YYYY-MM-DD], [hh:mm:ss] with an optional fraction of six digits, and
    the two joined by [T]. *)

Definition is_digit (c : ascii) : bool :=
  let n := nat_of_ascii c in ((48 <=? n) && (n <=? 57))%nat.

Definition is_char (a c : ascii) : bool := Ascii.eqb a c.

Fixpoint matches (pat : list (ascii -> bool)) (s : string) : bool :=
  match pat, s with
  | [], EmptyString => true
  | p :: ps, String c r => p c && matches ps r
  | _, _ => false
  end.

Definition iso_date_pattern : list (ascii -> bool) :=
  [is_digit; is_digit; is_digit; is_digit; is_char "-";
   is_digit; is_digit; is_char "-"; is_digit; is_digit].

Definition iso_time_pattern : list (ascii -> bool) :=
  [is_digit; is_digit; is_char ":"; is_digit; is_digit; is_char ":";
   is_digit; is_digit].

Definition iso_fraction_pattern : list (ascii -> bool) :=
  [is_char "."; is_digit; is_digit; is_digit; is_digit; is_digit; is_digit].

Definition is_iso_date (s : string) : bool := matches iso_date_pattern s.

Definition is_iso_time (s : string) : bool :=
  matches iso_time_pattern s
  || matches (iso_time_pattern ++ iso_fraction_pattern) s.

Definition is_iso_datetime (s : string) : bool :=
  matches (iso_date_pattern ++ [is_char "T"] ++ iso_time_pattern) s
  || matches (iso_date_pattern ++ [is_char "T"] ++ iso_time_pattern
              ++ iso_fraction_pattern) s.

(** The [w] low decimal digits of [n], most significant first. *)
Fixpoint fixed_digits (w : nat) (n : Z) : string :=
  match w with
  | O => ""
  | S w' => fixed_digits w' (n / 10) ++ String (digit (n mod 10)) ""
  end.

(** Values of [datetime] types as CPython constructs them. *)
Definition time_wf (t : time) : Prop :=
  0 <= t_hour t < 24 /\ 0 <= t_minute t < 60 /\ 0 <= t_second t < 60
  /\ 0 <= t_microsecond t < 1000000.

Definition date_wf (d : date) : Prop :=
  1 <= d_year d <= 9999 /\ 1 <= d_month d <= 12 /\ 1 <= d_day d <= 31.

Definition datetime_wf (d : datetime) : Prop :=
  date_wf (Date (dt_year d) (dt_month d) (dt_day d))
  /\ time_wf (Time (dt_hour d) (dt_minute d) (dt_second d)
                   (dt_microsecond d)).

Definition timedelta_wf (d : timedelta) : Prop :=
  -999999999 <= td_days d <= 999999999
  /\ 0 <= td_seconds d < 86400
  /\ 0 <= td_microseconds d < 1000000.

(** Backends whose table operation returns a column the encoder meets in
    practice: a single-precision float, and the difference of two
    timestamps, one second below zero. *)
Definition float32_backend : backend :=
  Backend create_table_params create_table_params create_table_params
          (fun _ => Ok (PList [PObj (ONumpy np_float32 (NpF 1.5%float))]))
          demo_operation demo_operation (fun _ => Ok PNone).

Definition duration_backend : backend :=
  Backend create_table_params create_table_params create_table_params
          (fun _ => Ok (PList [PObj (OTimedelta (Timedelta (-1) 86399 0))]))
          demo_operation demo_operation (fun _ => Ok PNone).

(** The objects [CustomizedEncoder.default] has a branch for: the two
    [isinstance] tuples of numpy types and the three [datetime] types. *)
Definition named_by_encoder (o : pyobj) : bool :=
  isinstance_np o [np_int_; np_intc; np_intp; np_int8; np_int16; np_int32;
                   np_int64; np_uint8; np_uint16; np_uint32; np_uint64]
  || isinstance_np o [np_float_; np_float16; np_float32; np_float64]
  || match o with
     | ODatetime _ | ODate _ | OTimedelta _ => true
     | _ => false
     end.

(** ** Reading an ISO-8601 string back

    The decoders the encodings are checked against: the fields of a string
    of one of the shapes above, read as decimal numbers. *)

Definition digit_value (c : ascii) : Z := Z.of_nat (nat_of_ascii c) - 48.

Fixpoint number_of (s : string) (acc : Z) : Z :=
  match s with
  | EmptyString => acc
  | String c r => number_of r (10 * acc + digit_value c)
  end.

(** The number written in the [len] characters of [s] from [start]. *)
Definition field (start len : nat) (s : string) : Z :=
  number_of (substring start len s) 0.

Definition date_fromisoformat (s : string) : option date :=
  if is_iso_date s
  then Some (Date (field 0 4 s) (field 5 2 s) (field 8 2 s))
  else None.


Definition datetime_fromisoformat (s : string) : option datetime :=
  if matches (iso_date_pattern ++ [is_char "T"] ++ iso_time_pattern) s
  then Some (Datetime (field 0 4 s) (field 5 2 s) (field 8 2 s)
                      (field 11 2 s) (field 14 2 s) (field 17 2 s) 0)
  else if matches (iso_date_pattern ++ [is_char "T"] ++ iso_time_pattern
                   ++ iso_fraction_pattern) s
  then Some (Datetime (field 0 4 s) (field 5 2 s) (field 8 2 s)
                      (field 11 2 s) (field 14 2 s) (field 17 2 s)
                      (field 20 6 s))
  else None.


(** * Properties *)

(** ** Dictionaries *)

Section DictFacts.
Context {V : Type}.
Implicit Types (d : list (string * V)) (k : string) (v : V).

Lemma lookup_setitem_eq k v d : lookup k (setitem k v d) = Some v.
Proof.
  induction d as [|[k' v'] r IH]; simpl.
  - now rewrite String.eqb_refl.
  - destruct (String.eqb k k') eqn:E; simpl; rewrite E; auto.
Qed.

Lemma lookup_setitem_neq k k' v d :
  k <> k' -> lookup k' (setitem k v d) = lookup k' d.
Proof.
  intros Hne. induction d as [|[k0 v0] r IH]; simpl.
  - destruct (String.eqb k' k) eqn:E; auto.
    apply String.eqb_eq in E. congruence.
  - destruct (String.eqb k k0) eqn:E; simpl.
    + apply String.eqb_eq in E. subst k0.
      destruct (String.eqb k' k) eqn:E'; auto.
      apply String.eqb_eq in E'. congruence.
    + now rewrite IH.
Qed.

Lemma lookup_In k v d : lookup k d = Some v -> In (k, v) d.
Proof.
  induction d as [|[k' v'] r IH]; simpl; [discriminate|].
  destruct (String.eqb k k') eqn:E; intros H.
  - apply String.eqb_eq in E. left. congruence.
  - right. auto.
Qed.

Lemma In_setitem k v d x :
  In x (setitem k v d) -> snd x = v \/ In x d.
Proof.
  induction d as [|[k' v'] r IH]; simpl.
  - intros [<-|[]]. now left.
  - destruct (String.eqb k k'); simpl; intros [<-|H]; auto.
    destruct (IH H); auto.
Qed.

Lemma has_key_setitem_eq k v d : has_key k (setitem k v d) = true.
Proof. unfold has_key. now rewrite lookup_setitem_eq. Qed.

Lemma has_key_setitem_neq k k' v d :
  k <> k' -> has_key k' (setitem k v d) = has_key k' d.
Proof. intros H. unfold has_key. now rewrite lookup_setitem_neq. Qed.
End DictFacts.

Lemma lookup_of_json_dict k m :
  lookup k (of_json_dict m) = option_map of_json (lookup k m).
Proof.
  induction m as [|[k' v] r IH]; simpl; auto.
  destruct (String.eqb k k'); auto.
Qed.

Lemma of_json_field k m :
  of_json (match lookup k m with Some x => x | None => JNull end)
  = match option_map of_json (lookup k m) with Some x => x | None => PNone end.
Proof. destruct (lookup k m); reflexivity. Qed.

Lemma setitem_of_json_dict k v m :
  setitem k (of_json v) (of_json_dict m) = of_json_dict (setitem k v m).
Proof.
  induction m as [|[k' v'] r IH]; simpl; auto.
  destruct (String.eqb k k'); simpl; auto. now rewrite IH.
Qed.

(** ** The encoder *)

Lemma iterencode_list default l :
  iterencode default (PList l)
  = (js <- encode_items default l ;; Ok (JArr js))%res.
Proof. reflexivity. Qed.

Lemma iterencode_dict default d :
  iterencode default (PDict d)
  = (m <- encode_members default d ;; Ok (JObj m))%res.
Proof. reflexivity. Qed.

Lemma encode_members_all default d m :
  encode_members default d = Ok m ->
  Forall (fun kv => encodable default (snd kv)) d.
Proof.
  revert m. induction d as [|[k x] r IH]; intros m H; constructor.
  - simpl in H. unfold encodable. simpl.
    destruct (iterencode default x); [eauto | discriminate].
  - simpl in H. destruct (iterencode default x); [|discriminate].
    simpl in H. destruct (encode_members default r) eqn:E; [|discriminate].
    eapply IH. reflexivity.
Qed.

Lemma encode_members_total default d :
  Forall (fun kv => encodable default (snd kv)) d ->
  exists m, encode_members default d = Ok m.
Proof.
  induction 1 as [|[k x] r [j Hj] _ [m IH]]; simpl; [eauto|].
  simpl in Hj. rewrite Hj. simpl. rewrite IH. simpl. eauto.
Qed.

Lemma encode_members_lookup default d m k :
  encode_members default d = Ok m ->
  match lookup k d with
  | Some v => exists j, iterencode default v = Ok j /\ lookup k m = Some j
  | None => lookup k m = None
  end.
Proof.
  revert m. induction d as [|[k' x] r IH]; intros m H; simpl in *.
  - now inversion H.
  - destruct (iterencode default x) as [j|] eqn:Ej; [|discriminate].
    simpl in H. destruct (encode_members default r) as [m'|] eqn:E;
      [|discriminate].
    simpl in H. inversion H; subst m. simpl.
    destruct (String.eqb k k'); [exists j; auto | apply IH; reflexivity].
Qed.

Lemma all_encodable_setitem default k v d :
  encodable default v ->
  Forall (fun kv => encodable default (snd kv)) d ->
  Forall (fun kv => encodable default (snd kv)) (setitem k v d).
Proof.
  intros Hv Hd. apply Forall_forall. intros x Hx.
  destruct (In_setitem _ _ _ _ Hx) as [->|Hin]; auto.
  rewrite Forall_forall in Hd. auto.
Qed.

(** Whatever the standard encoder emits, an encoder with another [default]
    emits as well: the standard [default] never returns. *)
Lemma json_dumps_any_default default v j :
  json_dumps v = Ok j -> iterencode default v = Ok j.
Proof.
  revert j. induction v as [| | | | |l IH|d IH|o] using pyval_nested_ind;
    intros j H; try exact H.
  - unfold json_dumps in H. rewrite iterencode_list in *.
    destruct (encode_items JSONEncoder_default l) as [js|] eqn:E;
      [|discriminate].
    simpl in H. inversion H; subst j. clear H.
    enough (encode_items default l = Ok js) as -> by reflexivity.
    revert js E. induction IH as [|x r Hx _ IHr]; intros js E.
    + exact E.
    + simpl in E. destruct (iterencode JSONEncoder_default x) as [jx|] eqn:Ex;
        [|discriminate].
      simpl in E.
      destruct (encode_items JSONEncoder_default r) as [jr|] eqn:Er;
        [|discriminate].
      simpl in E. inversion E; subst js. simpl.
      rewrite (Hx jx Ex). simpl. now rewrite (IHr jr eq_refl).
  - unfold json_dumps in H. rewrite iterencode_dict in *.
    destruct (encode_members JSONEncoder_default d) as [m|] eqn:E;
      [|discriminate].
    simpl in H. inversion H; subst j. clear H.
    enough (encode_members default d = Ok m) as -> by reflexivity.
    revert m E. induction IH as [|[k x] r Hx _ IHr]; intros m E.
    + exact E.
    + simpl in E. destruct (iterencode JSONEncoder_default x) as [jx|] eqn:Ex;
        [|discriminate].
      simpl in E.
      destruct (encode_members JSONEncoder_default r) as [jr|] eqn:Er;
        [|discriminate].
      simpl in E. inversion E; subst m. simpl in *.
      rewrite (Hx jx Ex). simpl. now rewrite (IHr jr eq_refl).
  - unfold json_dumps in H. simpl in *.
    destruct (as_builtin_float o); [exact H | discriminate].
Qed.

(** A value parsed from JSON is emitted back as it was, by any encoder. *)
Lemma iterencode_of_json default j : iterencode default (of_json j) = Ok j.
Proof.
  induction j as [| | | | |l IH|m IH] using json_nested_ind;
    try reflexivity.
  - simpl of_json. rewrite iterencode_list.
    enough (encode_items default (map of_json l) = Ok l) as -> by reflexivity.
    induction IH as [|x r Hx _ IHr]; [reflexivity|].
    simpl. rewrite Hx. simpl. now rewrite IHr.
  - simpl of_json. rewrite iterencode_dict.
    enough (encode_members default
              (map (fun kv => (fst kv, of_json (snd kv))) m) = Ok m)
      as -> by reflexivity.
    induction IH as [|[k x] r Hx _ IHr]; [reflexivity|].
    simpl in *. rewrite Hx. simpl. now rewrite IHr.
Qed.

Lemma all_encodable_of_json_dict default p :
  Forall (fun kv => encodable default (snd kv)) (of_json_dict p).
Proof.
  unfold of_json_dict. apply Forall_forall. intros x Hx.
  apply in_map_iff in Hx. destruct Hx as [[k v] [<- _]]. simpl.
  exists v. apply iterencode_of_json.
Qed.

Lemma encode_members_setitem default k v j d m :
  iterencode default v = Ok j ->
  encode_members default d = Ok m ->
  encode_members default (setitem k v d) = Ok (setitem k j m).
Proof.
  intros Hv. revert m. induction d as [|[k' x] r IH]; intros m H; simpl in *.
  - inversion H; subst m. simpl. now rewrite Hv.
  - destruct (iterencode default x) as [jx|] eqn:Ex; [|discriminate].
    simpl in H. destruct (encode_members default r) as [mr|] eqn:Er;
      [|discriminate].
    simpl in H. inversion H; subst m. simpl.
    destruct (String.eqb k k'); simpl.
    + rewrite Hv. simpl. now rewrite Er.
    + rewrite Ex. simpl. now rewrite (IH mr eq_refl).
Qed.

Lemma encode_members_of_json_dict default p :
  encode_members default (of_json_dict p) = Ok p.
Proof.
  pose proof (iterencode_of_json default (JObj p)) as H.
  simpl of_json in H. rewrite iterencode_dict in H.
  fold (of_json_dict p) in H.
  destruct (encode_members default (of_json_dict p)); simpl in H;
    congruence.
Qed.

(** ** The handlers and their common shape *)

Section Endpoints.
Variable B : backend.

(** Runs the [except] clause to its end on both sides. *)
Ltac run_except :=
  unfold except_clause, ret; simpl;
  repeat match goal with
         | |- context [match json_dumps ?x with _ => _ end] =>
             destruct (json_dumps x); simpl
         | |- context [match getitem ?k ?x with _ => _ end] =>
             destruct (getitem k x); simpl
         | |- context [match Response ?a ?b ?c with _ => _ end] =>
             destruct (Response a b c); simpl
         end;
  reflexivity.

Lemma get_table_view_nf req :
  req_method req = POST -> get_table_view B req = handler_nf B EP_get_table req.
Proof.
  intros Hm.
  unfold get_table_view, handler_nf, endpoint_params, try_except, bind, lift.
  rewrite Hm. simpl.
  destruct (get_json req) as [j|e]; simpl; [|run_except].
  destruct (unpack_table B j) as [p|e]; simpl; [|run_except].
  destruct (quiver_get_table B (of_json_dict p)) as [d|e]; simpl;
    [|run_except].
  destruct (jsonify _) as [r|e]; [reflexivity | run_except].
Qed.

Lemma join_view_nf req :
  req_method req = POST -> join_view B req = handler_nf B EP_join req.
Proof.
  intros Hm.
  unfold join_view, handler_nf, endpoint_params, try_except, bind, lift.
  rewrite Hm. simpl.
  destruct (get_json req) as [j|e]; simpl; [|run_except].
  destruct (unpack_join B j) as [p|e]; simpl; [|run_except].
  unfold assign; simpl.
  change (PStr "dict") with (of_json (JStr "dict")).
  rewrite setitem_of_json_dict.
  destruct (quiver_join B _) as [d|e]; simpl; [|run_except].
  destruct (jsonify _) as [r|e]; [reflexivity | run_except].
Qed.

Lemma union_view_nf req :
  req_method req = POST -> union_view B req = handler_nf B EP_union req.
Proof.
  intros Hm.
  unfold union_view, handler_nf, endpoint_params, try_except, bind, lift.
  rewrite Hm. simpl.
  destruct (get_json req) as [j|e]; simpl; [|run_except].
  destruct (unpack_union B j) as [p|e]; simpl; [|run_except].
  unfold assign; simpl.
  change (PStr "dict") with (of_json (JStr "dict")).
  rewrite setitem_of_json_dict.
  destruct (quiver_union B _) as [d|e]; simpl; [|run_except].
  destruct (jsonify _) as [r|e]; [reflexivity | run_except].
Qed.

Lemma create_table_view_nf req :
  req_method req = POST ->
  create_table_view B req = handler_nf B EP_create_table req.
Proof.
  intros Hm.
  unfold create_table_view, handler_nf, endpoint_params, try_except, bind,
    lift.
  rewrite Hm. simpl.
  destruct (get_json req) as [j|e]; simpl; [|run_except].
  destruct j as [| | | | | |m]; try run_except.
  simpl. fold (of_json_dict m). rewrite !lookup_of_json_dict.
  unfold assign. simpl. rewrite !of_json_field.
  set (Q := [("keyspace", _); ("tablename", _); ("columns", _)]).
  destruct (admix_create_table B Q) as [d|e]; simpl; [|run_except].
  destruct (json_dumps _) as [t|e]; simpl; [reflexivity | run_except].
Qed.

Lemma endpoint_view_nf h req :
  req_method req = POST -> endpoint_view B h req = handler_nf B h req.
Proof.
  destruct h; simpl.
  - apply get_table_view_nf.
  - apply join_view_nf.
  - apply union_view_nf.
  - apply create_table_view_nf.
Qed.

End Endpoints.

Lemma except_clause_of_json e p :
  except_clause e (of_json_dict p) = Ok (Some (error_response e p)).
Proof.
  unfold except_clause, json_dumps. rewrite iterencode_dict.
  rewrite (encode_members_setitem _ _ _ (JStr (str e)) _
             (setitem "status" (JInt DEF_ERROR_CODE) p)); [|reflexivity|].
  - simpl. unfold getitem.
    rewrite lookup_setitem_neq by discriminate.
    rewrite lookup_setitem_eq. reflexivity.
  - apply encode_members_setitem; [reflexivity|].
    apply encode_members_of_json_dict.
Qed.

Section Replies.
Variable B : backend.

Lemma lookup_data_finish h data md :
  lookup "data" (endpoint_finish h data md) = Some data.
Proof.
  destruct h; simpl;
    rewrite !lookup_setitem_neq by discriminate;
    apply lookup_setitem_eq.
Qed.

Lemma encode_members_finish default h data x p :
  iterencode default data = Ok x ->
  encode_members default (endpoint_finish h data (of_json_dict p))
  = Ok (success_envelope h x p).
Proof.
  intros Hx.
  destruct h; simpl;
    repeat (apply encode_members_setitem; [first [exact Hx|reflexivity]|]);
    apply encode_members_of_json_dict.
Qed.

Lemma endpoint_reply_ok h data x p :
  endpoint_dumps h data = Ok x ->
  endpoint_reply h (endpoint_finish h data (of_json_dict p))
  = Ok (success_response h x p).
Proof.
  intros Hx.
  destruct h;
    cbv [endpoint_reply endpoint_dumps jsonify flask_json_dumps json_dumps]
      in *;
    rewrite iterencode_dict;
    rewrite (encode_members_finish _ _ _ _ _ Hx);
    try reflexivity.
  simpl. unfold getitem. rewrite lookup_setitem_eq. reflexivity.
Qed.

(** When the result of the backend cannot be encoded, the reply fails. *)
Lemma endpoint_reply_raises h data e md :
  endpoint_dumps h data = Raise e ->
  lookup "data" md = Some data ->
  exists e', endpoint_reply h md = Raise e'.
Proof.
  intros Hx Hd.
  assert (Hm : exists e', encode_members
                 (match h with
                  | EP_create_table => JSONEncoder_default
                  | _ => CustomizedEncoder_default
                  end) md = Raise e').
  { destruct (encode_members _ md) as [m|e'] eqn:E; [|eauto].
    pose proof (encode_members_lookup _ _ _ "data" E) as L.
    rewrite Hd in L. destruct L as [j [Hj _]].
    destruct h; simpl in Hx;
      unfold flask_json_dumps, json_dumps in Hx; congruence. }
  destruct Hm as [e' He'].
  exists e'.
  destruct h; simpl; unfold jsonify, flask_json_dumps, json_dumps;
    rewrite iterencode_dict, He'; reflexivity.
Qed.

(** ... and so does the [except] clause that runs next: [metadata] still
    holds the result under ["data"], and the standard encoder accepts no
    more than the app's. *)
Lemma except_clause_raises h data e e1 md :
  endpoint_dumps h data = Raise e ->
  lookup "data" md = Some data ->
  exists e', except_clause e1 md = Raise e'.
Proof.
  intros Hx Hd. unfold except_clause.
  destruct (json_dumps (PDict _)) as [t|e'] eqn:E; simpl; [|eauto].
  exfalso. unfold json_dumps in E. rewrite iterencode_dict in E.
  destruct (encode_members JSONEncoder_default _) as [m|] eqn:Em;
    [|discriminate].
  pose proof (encode_members_lookup _ _ _ "data" Em) as L.
  rewrite !lookup_setitem_neq in L by discriminate.
  rewrite Hd in L. destruct L as [j [Hj _]].
  destruct h; simpl in Hx.
  1-3: apply (json_dumps_any_default CustomizedEncoder_default) in Hj;
    unfold flask_json_dumps in Hx; congruence.
  unfold json_dumps in Hx. congruence.
Qed.

Lemma handler_nf_reply_of h req :
  match reply_of B h req with
  | Ok r => handler_nf B h req = Ok (Some r)
  | Raise _ => exists e, handler_nf B h req = Raise e
  end.
Proof.
  unfold reply_of, handler_nf.
  destruct (get_json req) as [j|e].
  2: { apply (except_clause_of_json e []). }
  destruct (endpoint_params B h j) as [p|e].
  2: { apply (except_clause_of_json e []). }
  destruct (endpoint_call B h (of_json_dict p)) as [d|e].
  2: { apply except_clause_of_json. }
  destruct (endpoint_dumps h d) as [x|e] eqn:Ex.
  - cbv zeta. now rewrite (endpoint_reply_ok _ _ _ _ Ex).
  - cbv zeta.
    pose proof (lookup_data_finish h d (of_json_dict p)) as Hd.
    destruct (endpoint_reply_raises h d e _ Ex Hd) as [e' ->].
    apply (except_clause_raises h d e e' _ Ex Hd).
Qed.

Lemma endpoint_unfold h req :
  endpoint B h req
  = (rv <- endpoint_view B h req ;;
     resp <- make_response rv ;;
     Ok (set_header "Location" (endpoint_rule h) resp))%res.
Proof. destruct h; reflexivity. Qed.

(** The decorated handler on a POST request. *)
Lemma endpoint_reply_of h req :
  req_method req = POST ->
  match reply_of B h req with
  | Ok r => endpoint B h req
            = Ok (set_header "Location" (endpoint_rule h) r)
  | Raise _ => exists e, endpoint B h req = Raise e
  end.
Proof.
  intros Hm. rewrite endpoint_unfold, (endpoint_view_nf B h req Hm).
  pose proof (handler_nf_reply_of h req) as H.
  destruct (reply_of B h req) as [r|e0].
  - now rewrite H.
  - destruct H as [e ->]. simpl. eauto.
Qed.

End Replies.

(** ** Envelopes *)

Ltac dict_simpl :=
  unfold has_key;
  repeat first [ rewrite lookup_setitem_eq
               | rewrite lookup_setitem_neq by discriminate ].

Lemma has_key_setitem_mono {V} k k' (v : V) d :
  has_key k d = true -> has_key k (setitem k' v d) = true.
Proof.
  intros H. destruct (String.eqb_spec k' k) as [->|Hne].
  - apply has_key_setitem_eq.
  - now rewrite has_key_setitem_neq.
Qed.

Lemma lookup_has_key {V} k (v : V) d : lookup k d = Some v -> has_key k d = true.
Proof. unfold has_key. now intros ->. Qed.

Lemma status_code_set_header k v r :
  status_code (set_header k v r) = status_code r.
Proof. reflexivity. Qed.

Lemma json_body_set_header k v r : json_body (set_header k v r) = json_body r.
Proof. reflexivity. Qed.

Lemma endpoint_params_unpack B h j p :
  endpoint_params B h j = Ok p ->
  exists u, endpoint_unpack B h j = Ok u
            /\ p = if adds_format h then setitem "format" (JStr "dict") u
                   else u.
Proof.
  unfold endpoint_params. destruct (endpoint_unpack B h j) as [u|e]; simpl.
  - intros H. inversion H. eauto.
  - discriminate.
Qed.

Lemma lookup_error_envelope_status e p :
  lookup "status" (error_envelope e p) = Some (JInt 500).
Proof. unfold error_envelope. now dict_simpl. Qed.

Lemma lookup_error_envelope_message e p :
  lookup "error_message" (error_envelope e p) = Some (JStr (str e)).
Proof. unfold error_envelope. now dict_simpl. Qed.

Lemma lookup_error_envelope_other e p k :
  k <> "status" -> k <> "error_message" ->
  lookup k (error_envelope e p) = lookup k p.
Proof.
  intros H1 H2. unfold error_envelope.
  rewrite !lookup_setitem_neq; auto.
Qed.

Lemma lookup_success_envelope_status h x p :
  lookup "status" (success_envelope h x p) = Some (JInt (success_status h)).
Proof. destruct h; unfold success_envelope; now dict_simpl. Qed.

Lemma lookup_success_envelope_success h x p :
  lookup "success" (success_envelope h x p) = Some (JBool true).
Proof. destruct h; unfold success_envelope; now dict_simpl. Qed.

Lemma lookup_success_envelope_data h x p :
  lookup "data" (success_envelope h x p) = Some x.
Proof. destruct h; unfold success_envelope; now dict_simpl. Qed.

Lemma lookup_success_envelope_other h x p k :
  k <> "data" -> k <> "success" -> k <> "status" ->
  lookup k (success_envelope h x p) = lookup k p.
Proof.
  intros H1 H2 H3.
  destruct h; unfold success_envelope; rewrite !lookup_setitem_neq; auto.
Qed.

(** The replies a POST handler can give, read off [reply_of]. *)
Lemma endpoint_replies B h req resp :
  req_method req = POST ->
  endpoint B h req = Ok resp ->
  (exists e p,
      raised_before_reply B h req e
      /\ (p = [] \/ exists j, get_json req = Ok j
                              /\ endpoint_params B h j = Ok p)
      /\ resp = set_header "Location" (endpoint_rule h) (error_response e p))
  \/ (exists j p d x,
         get_json req = Ok j
         /\ endpoint_params B h j = Ok p
         /\ endpoint_call B h (of_json_dict p) = Ok d
         /\ endpoint_dumps h d = Ok x
         /\ resp = set_header "Location" (endpoint_rule h)
                              (success_response h x p)).
Proof.
  intros Hm Hr. pose proof (endpoint_reply_of B h req Hm) as H.
  unfold reply_of in H.
  destruct (get_json req) as [j|e] eqn:Ej.
  2: { left. exists e, []. rewrite H in Hr. inversion Hr.
       repeat split; auto. now apply raised_in_get_json. }
  destruct (endpoint_params B h j) as [p|e] eqn:Ep.
  2: { left. exists e, []. rewrite H in Hr. inversion Hr.
       repeat split; auto. apply raised_in_unpack with j; auto.
       unfold endpoint_params in Ep.
       destruct (endpoint_unpack B h j); simpl in Ep; congruence. }
  destruct (endpoint_call B h (of_json_dict p)) as [d|e] eqn:Ec.
  2: { left. exists e, p. rewrite H in Hr. inversion Hr.
       repeat split; eauto. now apply raised_in_call with j p. }
  destruct (endpoint_dumps h d) as [x|e] eqn:Ex.
  - right. exists j, p, d, x. rewrite H in Hr. inversion Hr. auto.
  - destruct H as [e' H]. congruence.
Qed.

(** ** C1 *)

(** C1.  For each of the four POST handlers, an exception raised while the
    request is unpacked or the backend is called, of whatever class, is
    answered by a response with HTTP status 500 whose body has [status=500]
    and [error_message] equal to [str(e)]. *)
Theorem exception_gives_error_envelope B h req e :
  req_method req = POST ->
  raised_before_reply B h req e ->
  exists resp m,
    endpoint B h req = Ok resp
    /\ status_code resp = 500
    /\ json_body resp = Some m
    /\ lookup "status" m = Some (JInt 500)
    /\ lookup "error_message" m = Some (JStr (str e)).
Proof.
  intros Hm Hr. pose proof (endpoint_reply_of B h req Hm) as H.
  assert (Hrep : exists p, reply_of B h req = Ok (error_response e p)).
  { unfold reply_of. destruct Hr as [Hj | j Hj Hu | j p Hj Hp Hc].
    - rewrite Hj. eauto.
    - rewrite Hj. unfold endpoint_params. rewrite Hu. simpl. eauto.
    - rewrite Hj, Hp, Hc. eauto. }
  destruct Hrep as [p Hrep]. rewrite Hrep in H.
  exists (set_header "Location" (endpoint_rule h) (error_response e p)),
         (error_envelope e p).
  repeat split; auto.
  - apply lookup_error_envelope_status.
  - apply lookup_error_envelope_message.
Qed.

Lemma exception_gives_error_envelope_witness :
  exists resp m,
    endpoint demo_backend EP_join (Request POST "/join" (Ok JNull)) = Ok resp
    /\ status_code resp = 500
    /\ json_body resp = Some m
    /\ lookup "status" m = Some (JInt 500)
    /\ lookup "error_message" m
       = Some (JStr "'NoneType' object has no attribute 'get'").
Proof.
  apply (exception_gives_error_envelope demo_backend EP_join
           (Request POST "/join" (Ok JNull))
           (AttributeError "NoneType" "get")).
  - reflexivity.
  - apply raised_in_unpack with JNull; reflexivity.
Defined.

(** ** C9 *)

(** C9.  When unpacking, the backend call and the encoding of its result
    all succeed, POST /create-table answers with HTTP status 201 and body
    [status=201], and POST /get-table, /join and /union answer with HTTP
    status 200 and body [status=200]; the body has [success=true]. *)
Theorem success_status_by_endpoint B h req j p d x :
  req_method req = POST ->
  get_json req = Ok j ->
  endpoint_params B h j = Ok p ->
  endpoint_call B h (of_json_dict p) = Ok d ->
  endpoint_dumps h d = Ok x ->
  exists resp m,
    endpoint B h req = Ok resp
    /\ json_body resp = Some m
    /\ lookup "success" m = Some (JBool true)
    /\ match h with
       | EP_create_table =>
           status_code resp = 201 /\ lookup "status" m = Some (JInt 201)
       | EP_get_table | EP_join | EP_union =>
           status_code resp = 200 /\ lookup "status" m = Some (JInt 200)
       end.
Proof.
  intros Hm Hj Hp Hc Hx. pose proof (endpoint_reply_of B h req Hm) as H.
  unfold reply_of in H. rewrite Hj, Hp, Hc, Hx in H.
  exists (set_header "Location" (endpoint_rule h) (success_response h x p)),
         (success_envelope h x p).
  repeat split; auto.
  - apply lookup_success_envelope_success.
  - pose proof (lookup_success_envelope_status h x p) as Hs.
    destruct h; split; solve [reflexivity | exact Hs].
Qed.

Lemma success_status_by_endpoint_witness :
  exists resp m,
    endpoint demo_backend EP_create_table
             (Request POST "/create-table" (Ok demo_body)) = Ok resp
    /\ json_body resp = Some m
    /\ lookup "success" m = Some (JBool true)
    /\ status_code resp = 201 /\ lookup "status" m = Some (JInt 201).
Proof.
  refine (success_status_by_endpoint demo_backend EP_create_table
            (Request POST "/create-table" (Ok demo_body)) demo_body
            _ PNone JNull _ _ _ _ _); reflexivity.
Defined.

(** ** C3 *)





(** The parameters [create_table] reads are [keyspace], [tablename] and
    [columns]: the contract holds of the handler itself. *)
Lemma create_table_avoids_envelope_keys B :
  unpack_avoids_envelope_keys B EP_create_table.
Proof.
  intros j p H. simpl in H. destruct j; try discriminate.
  inversion H. repeat split; reflexivity.
Qed.




(** ** C10 *)

(** C10.  The body of a success response echoes the whole parameter mapping
    produced by unpacking: every key of it is a key of the body, with the
    unpacked value unless the handler assigned the key afterwards
    ([format] for /join and /union, [data], [success], [status]); /join and
    /union add [format='dict'].  A failure response after unpacking echoes
    the parameters in the same way, next to [status] and
    [error_message]. *)
Theorem bodies_echo_parameters B h req j u p :
  req_method req = POST ->
  get_json req = Ok j ->
  endpoint_unpack B h j = Ok u ->
  endpoint_params B h j = Ok p ->
  (forall d x,
      endpoint_call B h (of_json_dict p) = Ok d ->
      endpoint_dumps h d = Ok x ->
      exists resp m,
        endpoint B h req = Ok resp
        /\ json_body resp = Some m
        /\ (forall k v,
               lookup k u = Some v ->
               has_key k m = true
               /\ (~ In k ["data"; "success"; "status"] ->
                   (adds_format h = true -> k <> "format") ->
                   lookup k m = Some v))
        /\ (adds_format h = true -> lookup "format" m = Some (JStr "dict"))
        /\ lookup "data" m = Some x
        /\ lookup "success" m = Some (JBool true)
        /\ has_key "status" m = true)
  /\ (forall e,
         endpoint_call B h (of_json_dict p) = Raise e ->
         exists resp m,
           endpoint B h req = Ok resp
           /\ json_body resp = Some m
           /\ (forall k v,
                  lookup k u = Some v ->
                  has_key k m = true
                  /\ (~ In k ["status"; "error_message"] ->
                      (adds_format h = true -> k <> "format") ->
                      lookup k m = Some v))
           /\ (adds_format h = true -> lookup "format" m = Some (JStr "dict"))
           /\ lookup "status" m = Some (JInt 500)
           /\ lookup "error_message" m = Some (JStr (str e))).
Proof.
  intros Hm Hj Hu Hp.
  assert (Hpu : p = if adds_format h then setitem "format" (JStr "dict") u
                    else u).
  { destruct (endpoint_params_unpack _ _ _ _ Hp) as [u' [Hu' Hp']].
    rewrite Hu in Hu'. inversion Hu'; subst u'. exact Hp'. }
  assert (Hkey : forall k v, lookup k u = Some v -> has_key k p = true).
  { intros k v Hk. apply lookup_has_key in Hk. rewrite Hpu.
    destruct (adds_format h); auto. now apply has_key_setitem_mono. }
  assert (Hval : forall k v,
             lookup k u = Some v ->
             (adds_format h = true -> k <> "format") ->
             lookup k p = Some v).
  { intros k v Hk Hf. rewrite Hpu. destruct (adds_format h); auto.
    rewrite lookup_setitem_neq; auto. intros E. now apply Hf. }
  assert (Hfmt : adds_format h = true -> lookup "format" p = Some (JStr "dict")).
  { intros Hf. rewrite Hpu, Hf. apply lookup_setitem_eq. }
  pose proof (endpoint_reply_of B h req Hm) as H.
  unfold reply_of in H. rewrite Hj, Hp in H.
  split.
  - intros d x Hc Hx. rewrite Hc, Hx in H.
    exists (set_header "Location" (endpoint_rule h) (success_response h x p)),
           (success_envelope h x p).
    split; [exact H|]. split; [reflexivity|]. split; [|split; [|split; [|split]]].
    + intros k v Hk. split.
      * destruct h; unfold success_envelope;
          repeat apply has_key_setitem_mono; eauto.
      * intros Hn Hf. simpl in Hn.
        rewrite lookup_success_envelope_other by intuition congruence.
        auto.
    + intros Hf. rewrite lookup_success_envelope_other by discriminate. auto.
    + apply lookup_success_envelope_data.
    + apply lookup_success_envelope_success.
    + eapply lookup_has_key. apply lookup_success_envelope_status.
  - intros e Hc. rewrite Hc in H.
    exists (set_header "Location" (endpoint_rule h) (error_response e p)),
           (error_envelope e p).
    split; [exact H|]. split; [reflexivity|]. split; [|split; [|split]].
    + intros k v Hk. split.
      * unfold error_envelope. repeat apply has_key_setitem_mono. eauto.
      * intros Hn Hf. simpl in Hn.
        rewrite lookup_error_envelope_other by intuition congruence.
        auto.
    + intros Hf. rewrite lookup_error_envelope_other by discriminate. auto.
    + apply lookup_error_envelope_status.
    + apply lookup_error_envelope_message.
Qed.

Lemma bodies_echo_parameters_witness :
  (exists resp m,
      endpoint demo_backend EP_join (Request POST "/join" (Ok demo_body))
      = Ok resp
      /\ json_body resp = Some m
      /\ lookup "keyspace" m = Some (JStr "examples")
      /\ lookup "format" m = Some (JStr "dict"))
  /\ (exists resp m,
         endpoint demo_backend EP_join
                  (Request POST "/join" (Ok (JObj [("tablename", JStr "t")])))
         = Ok resp
         /\ json_body resp = Some m
         /\ lookup "tablename" m = Some (JStr "t")
         /\ lookup "status" m = Some (JInt 500)).
Proof.
  split.
  - destruct (bodies_echo_parameters demo_backend EP_join
                (Request POST "/join" (Ok demo_body)) demo_body
                [("keyspace", JStr "examples"); ("tablename", JStr "mock_data");
                 ("columns", JNull)]
                [("keyspace", JStr "examples"); ("tablename", JStr "mock_data");
                 ("columns", JNull); ("format", JStr "dict")]
                eq_refl eq_refl eq_refl eq_refl) as [HS _].
    edestruct HS as [resp [m [H1 [H2 [H3 [H4 _]]]]]];
      [vm_compute; reflexivity | vm_compute; reflexivity |].
    exists resp, m. repeat split; auto.
    apply (H3 "keyspace" (JStr "examples") eq_refl).
    + simpl. intuition discriminate.
    + discriminate.
  - destruct (bodies_echo_parameters demo_backend EP_join
                (Request POST "/join" (Ok (JObj [("tablename", JStr "t")])))
                (JObj [("tablename", JStr "t")])
                [("keyspace", JNull); ("tablename", JStr "t");
                 ("columns", JNull)]
                [("keyspace", JNull); ("tablename", JStr "t");
                 ("columns", JNull); ("format", JStr "dict")]
                eq_refl eq_refl eq_refl eq_refl) as [_ HF].
    destruct (HF (Exn "ValueError" "keyspace is required") eq_refl)
      as [resp [m [H1 [H2 [H3 [_ [H5 _]]]]]]].
    exists resp, m. repeat split; auto.
    apply (H3 "tablename" (JStr "t") eq_refl).
    + simpl. intuition discriminate.
    + discriminate.
Defined.

(** ** Routing: C5, C6, C7 *)

Lemma add_response_headers_location rule f req resp :
  add_response_headers [("Location", rule)] f req = Ok resp ->
  location resp = Some rule.
Proof.
  unfold add_response_headers. destruct (f req) as [rv|e]; simpl;
    [|discriminate].
  destruct (make_response rv) as [r|e]; simpl; [|discriminate].
  intros H. inversion H. unfold location. simpl. apply lookup_setitem_eq.
Qed.

Lemma match_request_not_found req :
  ~ In (req_path req) (map fst url_map) -> match_request req = NotFound.
Proof.
  intros Hn. unfold match_request.
  assert (H : filter (fun r => String.eqb (fst r) (req_path req)) url_map = []).
  { simpl in Hn. unfold url_map. cbn [filter fst].
    repeat match goal with
           | |- context [String.eqb ?a (req_path req)] =>
               destruct (String.eqb_spec a (req_path req));
               [exfalso; apply Hn; tauto|]
           end.
    reflexivity. }
  now rewrite H.
Qed.

(** C6.  GET / answers with a redirect (302) whose target is /about, and
    GET /about and GET /version answer 200 with a JSON body, the same for
    every request and backend, in which [api_name] is ['Apollo'] and
    [license] is ['Apache 2.0']. *)
Theorem root_redirects_and_static_metadata B body :
  (status_code (wsgi_app B (Request GET "/" body)) = 302
   /\ location (wsgi_app B (Request GET "/" body)) = Some "/about")
  /\ (status_code (wsgi_app B (Request GET "/about" body)) = 200
      /\ wsgi_app B (Request GET "/about" body)
         = wsgi_app demo_backend (Request GET "/about" (Ok JNull))
      /\ exists m,
           json_body (wsgi_app B (Request GET "/about" body)) = Some m
           /\ lookup "api_name" m = Some (JStr "Apollo")
           /\ lookup "license" m = Some (JStr "Apache 2.0"))
  /\ (status_code (wsgi_app B (Request GET "/version" body)) = 200
      /\ wsgi_app B (Request GET "/version" body)
         = wsgi_app demo_backend (Request GET "/version" (Ok JNull))
      /\ exists m,
           json_body (wsgi_app B (Request GET "/version" body)) = Some m
           /\ lookup "api_name" m = Some (JStr "Apollo")
           /\ lookup "license" m = Some (JStr "Apache 2.0")).
Proof.
  split; [split; reflexivity|].
  split; (split; [reflexivity|]); (split; [reflexivity|]);
    eexists; (split; [reflexivity|]); split; reflexivity.
Qed.

(** C7.  A request whose path is not in the routing table is answered with
    one fixed JSON body, whatever the path, the method and the backend; it
    has [status=404], [api_name='Apollo'] and [license='Apache 2.0']. *)
Theorem unknown_path_fixed_body B B' req req' :
  ~ In (req_path req) (map fst url_map) ->
  ~ In (req_path req') (map fst url_map) ->
  resp_body (wsgi_app B req) = resp_body (wsgi_app B' req')
  /\ exists m,
       json_body (wsgi_app B req) = Some m
       /\ lookup "status" m = Some (JInt 404)
       /\ lookup "api_name" m = Some (JStr "Apollo")
       /\ lookup "license" m = Some (JStr "Apache 2.0").
Proof.
  intros H H'. unfold wsgi_app, full_dispatch_request.
  rewrite (match_request_not_found req H), (match_request_not_found req' H').
  split; [reflexivity|].
  eexists. split; [reflexivity|]. repeat split; reflexivity.
Qed.

Lemma unknown_path_fixed_body_witness :
  resp_body (wsgi_app demo_backend (Request GET "/tables" (Ok JNull)))
  = resp_body (wsgi_app counting_backend (Request POST "/join/" (Ok demo_body)))
  /\ exists m,
       json_body (wsgi_app demo_backend (Request GET "/tables" (Ok JNull)))
       = Some m
       /\ lookup "status" m = Some (JInt 404)
       /\ lookup "api_name" m = Some (JStr "Apollo")
       /\ lookup "license" m = Some (JStr "Apache 2.0").
Proof.
  apply (unknown_path_fixed_body demo_backend counting_backend
           (Request GET "/tables" (Ok JNull))
           (Request POST "/join/" (Ok demo_body)));
    simpl; intuition discriminate.
Defined.

(** C5, as stated, fails: the response to GET / carries [Location: /about],
    not the request path, and the 404 response carries no [Location]. *)
Lemma location_is_not_always_request_path :
  location (wsgi_app demo_backend (Request GET "/" (Ok JNull)))
  <> Some (req_path (Request GET "/" (Ok JNull)))
  /\ location (wsgi_app demo_backend (Request GET "/tables" (Ok JNull)))
     <> Some (req_path (Request GET "/tables" (Ok JNull))).
Proof. split; vm_compute; discriminate. Qed.

Lemma match_request_matched req ep :
  match_request req = Matched ep ->
  In (req_path req, ep)
     [ ("/", "root"); ("/version", "version"); ("/about", "about");
       ("/get-table", "get_table"); ("/join", "join"); ("/union", "union");
       ("/create-table", "create_table") ].
Proof.
  destruct req as [m path body]. unfold match_request, url_map.
  cbn [filter fst req_path req_method].
  repeat match goal with
         | |- context [String.eqb ?a path] =>
             destruct (String.eqb_spec a path); [subst path|]
         end;
    destruct m; simpl; intros H; inversion H; tauto.
Qed.

(** C5, amended.  The [Location] header of a response is the request path
    when the request is routed to /version, /about, /get-table, /join,
    /union or /create-table and the handler returns a response; it is
    /about for the redirect of /; and the replies for an unknown path, for
    a method the route does not accept, and for an exception that leaves
    the handler carry no [Location] header. *)
Theorem location_header_by_route B req :
  location (wsgi_app B req)
  = match full_dispatch_request B req, match_request req with
    | Ok _, Matched endpoint =>
        Some (if String.eqb endpoint "root" then "/about" else req_path req)
    | _, _ => None
    end.
Proof.
  assert (key : forall resp,
             full_dispatch_request B req = Ok resp ->
             location resp
             = match match_request req with
               | Matched endpoint =>
                   Some (if String.eqb endpoint "root" then "/about"
                         else req_path req)
               | _ => None
               end).
  { intros resp. unfold full_dispatch_request.
    destruct (match_request req) as [ep| |] eqn:Em.
    - apply match_request_matched in Em. simpl in Em.
      repeat destruct Em as [Em|Em]; try contradiction;
        inversion Em as [[Hp He]]; simpl; rewrite <- ?Hp;
        apply add_response_headers_location.
    - intros H. vm_compute in H. inversion H. reflexivity.
    - intros H. inversion H. reflexivity. }
  unfold wsgi_app.
  destruct (full_dispatch_request B req) as [resp|e] eqn:E.
  - now rewrite (key resp eq_refl).
  - destruct (match_request req); reflexivity.
Qed.

(** ** C4: the encoder of the failure path *)


(** Whenever the [except] clause produces a reply, the customized encoder
    would have produced the same one. *)
Lemma failure_path_encoder_agreement e md r :
  except_clause e md = Ok r ->
  except_clause_same_encoder e md = Ok r.
Proof.
  unfold except_clause, except_clause_same_encoder, flask_json_dumps.
  cbv zeta.
  destruct (json_dumps (PDict _)) as [t|e'] eqn:E; [|simpl; discriminate].
  now rewrite (json_dumps_any_default CustomizedEncoder_default _ _ E).
Qed.

(** ** Decimal formatting *)

Lemma append_assoc (a b c : string) : ((a ++ b) ++ c = a ++ (b ++ c))%string.
Proof. induction a as [|x a IH]; simpl; [reflexivity | now rewrite IH]. Qed.

Lemma dec_loop_S fuel n acc :
  dec_loop (S fuel) n acc
  = if n / 10 =? 0 then String (digit (n mod 10)) acc
    else dec_loop fuel (n / 10) (String (digit (n mod 10)) acc).
Proof. reflexivity. Qed.

Lemma dec_loop_fixed fuel n acc :
  0 <= n < 2 ^ Z.of_nat (S fuel) ->
  exists k,
    dec_loop (S fuel) n acc = (fixed_digits (S k) n ++ acc)%string
    /\ n < 10 ^ Z.of_nat (S k)
    /\ (k = O \/ 10 ^ Z.of_nat k <= n).
Proof.
  revert n acc. induction fuel as [|fuel IH]; intros n acc Hn.
  - exists O. change (2 ^ Z.of_nat 1) with 2 in Hn.
    assert (Hq : n / 10 = 0) by (apply Z.div_small; lia).
    cbn [dec_loop]. rewrite Hq. change (0 =? 0) with true. cbv iota.
    split; [reflexivity|]. change (10 ^ Z.of_nat 1) with 10.
    split; [lia | now left].
  - rewrite dec_loop_S. destruct (Z.eqb_spec (n / 10) 0) as [Hq|Hq].
    + exists O. split; [reflexivity|]. change (10 ^ Z.of_nat 1) with 10.
      split; [|now left].
      assert (n < 10) by (apply Z.div_small_iff in Hq; lia). lia.
    + assert (Hb : 0 <= n / 10 < 2 ^ Z.of_nat (S fuel)).
      { split; [apply Z.div_pos; lia|].
        apply Z.div_lt_upper_bound; [lia|].
        replace (Z.of_nat (S (S fuel))) with (Z.succ (Z.of_nat (S fuel)))
          in Hn by lia.
        rewrite Z.pow_succ_r in Hn by lia.
        assert (0 < 2 ^ Z.of_nat (S fuel)) by (apply Z.pow_pos_nonneg; lia).
        lia. }
      destruct (IH (n / 10) (String (digit (n mod 10)) acc) Hb)
        as [k [Hk [Hlt Hmin]]].
      exists (S k). rewrite Hk. split; [|split].
      * cbn [fixed_digits]. rewrite !append_assoc. reflexivity.
      * replace (Z.of_nat (S (S k))) with (Z.succ (Z.of_nat (S k))) by lia.
        rewrite Z.pow_succ_r by lia.
        pose proof (Z.div_mod n 10 ltac:(lia)).
        pose proof (Z.mod_pos_bound n 10 ltac:(lia)). lia.
      * right.
        replace (Z.of_nat (S k)) with (Z.succ (Z.of_nat k)) by lia.
        rewrite Z.pow_succ_r by lia.
        pose proof (Z.div_mod n 10 ltac:(lia)).
        pose proof (Z.mod_pos_bound n 10 ltac:(lia)).
        destruct Hmin as [->|Hmin].
        -- change (10 ^ Z.of_nat 0) with 1. destruct Hb. lia.
        -- lia.
Qed.

Lemma length_append (a b : string) :
  String.length (a ++ b) = (String.length a + String.length b)%nat.
Proof. induction a; simpl; auto. Qed.

Lemma length_fixed_digits w n : String.length (fixed_digits w n) = w.
Proof.
  revert n. induction w as [|w IH]; intros n; simpl; auto.
  rewrite length_append, IH. simpl. lia.
Qed.

Lemma fixed_digits_leading_zero k n :
  0 <= n < 10 ^ Z.of_nat k ->
  fixed_digits (S k) n = String "0" (fixed_digits k n).
Proof.
  revert n. induction k as [|k IH]; intros n Hn.
  - change (10 ^ Z.of_nat 0) with 1 in Hn.
    replace n with 0 by lia. reflexivity.
  - change (fixed_digits (S (S k)) n)
      with (fixed_digits (S k) (n / 10) ++ String (digit (n mod 10)) "")%string.
    rewrite IH; [reflexivity|].
    replace (Z.of_nat (S k)) with (Z.succ (Z.of_nat k)) in Hn by lia.
    rewrite Z.pow_succ_r in Hn by lia.
    split; [apply Z.div_pos; lia|].
    apply Z.div_lt_upper_bound; lia.
Qed.

Lemma zeros_fixed_digits j k n :
  0 <= n < 10 ^ Z.of_nat k ->
  (zeros j ++ fixed_digits k n)%string = fixed_digits (j + k) n.
Proof.
  intros Hn. induction j as [|j IH]; [reflexivity|].
  simpl zeros. cbn [append]. rewrite IH.
  change (S j + k)%nat with (S (j + k)).
  rewrite fixed_digits_leading_zero; [reflexivity|].
  split; [lia|]. eapply Z.lt_le_trans; [apply Hn|].
  apply Z.pow_le_mono_r; lia.
Qed.

(** ["%0wd" % n] is the [w] digits of [n] when [n] has at most [w]. *)
Lemma format_d_fixed w n :
  (0 < w)%nat -> 0 <= n < 10 ^ Z.of_nat w -> format_d w n = fixed_digits w n.
Proof.
  intros Hw Hn. unfold format_d, decimal.
  destruct (dec_loop_fixed (Z.to_nat (Z.log2 n)) n "") as [k [Hk [Hlt Hmin]]].
  { split; [lia|]. rewrite Nat2Z.inj_succ, Z2Nat.id by apply Z.log2_nonneg.
    destruct (Z.eq_dec n 0) as [->|Hz]; [reflexivity|].
    apply Z.log2_spec. lia. }
  rewrite Hk.
  assert (Hs : (fixed_digits (S k) n ++ "")%string = fixed_digits (S k) n).
  { generalize (fixed_digits (S k) n). intros s.
    induction s; simpl; congruence. }
  rewrite Hs, length_fixed_digits.
  assert (Hle : (S k <= w)%nat).
  { destruct Hmin as [->|Hmin]; [lia|].
    assert (10 ^ Z.of_nat k < 10 ^ Z.of_nat w) by lia.
    apply Z.pow_lt_mono_r_iff in H; lia. }
  rewrite zeros_fixed_digits by lia.
  f_equal. lia.
Qed.

(** ** ISO-8601 output of the temporal types *)

Lemma is_digit_digit n : 0 <= n < 10 -> is_digit (digit n) = true.
Proof.
  intros H. unfold is_digit, digit.
  rewrite nat_ascii_embedding by lia.
  apply andb_true_iff. split; apply Nat.leb_le; lia.
Qed.

Lemma matches_app p1 p2 s1 s2 :
  matches p1 s1 = true -> matches p2 s2 = true ->
  matches (p1 ++ p2) (s1 ++ s2) = true.
Proof.
  revert s1. induction p1 as [|p ps IH]; intros [|c s1] H1 H2;
    simpl in *; try discriminate; auto.
  apply andb_true_iff in H1. destruct H1 as [Hc Hs].
  rewrite Hc. simpl. auto.
Qed.

Lemma matches_fixed_digits w n :
  matches (repeat is_digit w) (fixed_digits w n) = true.
Proof.
  revert n. induction w as [|w IH]; intros n; [reflexivity|].
  change (repeat is_digit (S w)) with (is_digit :: repeat is_digit w).
  rewrite repeat_cons. cbn [fixed_digits].
  apply matches_app; [apply IH|].
  cbn [matches]. rewrite is_digit_digit; [reflexivity|].
  apply Z.mod_pos_bound. lia.
Qed.

Ltac iso_parts :=
  repeat (apply matches_app;
          [first [apply matches_fixed_digits | reflexivity]|]);
  first [apply matches_fixed_digits | reflexivity].

Lemma date_isoformat_iso d :
  date_wf d -> is_iso_date (date_isoformat d) = true.
Proof.
  intros [Hy [Hm Hd]]. unfold is_iso_date, date_isoformat.
  rewrite !format_d_fixed by (simpl; lia).
  change iso_date_pattern
    with (repeat is_digit 4 ++ [is_char "-"] ++ repeat is_digit 2
          ++ [is_char "-"] ++ repeat is_digit 2)%list.
  iso_parts.
Qed.

Lemma time_isoformat_iso t :
  time_wf t -> is_iso_time (time_isoformat t) = true.
Proof.
  intros [Hh [Hm [Hs Hu]]]. unfold is_iso_time, time_isoformat.
  rewrite !format_d_fixed by (simpl; lia).
  destruct (Z.eqb_spec (t_microsecond t) 0) as [_|_];
    apply orb_true_iff; [left | right].
  - change iso_time_pattern
      with (repeat is_digit 2 ++ [is_char ":"] ++ repeat is_digit 2
            ++ [is_char ":"] ++ repeat is_digit 2 ++ [])%list.
    iso_parts.
  - change (iso_time_pattern ++ iso_fraction_pattern)%list
      with (repeat is_digit 2 ++ [is_char ":"] ++ repeat is_digit 2
            ++ [is_char ":"] ++ repeat is_digit 2 ++ [is_char "."]
            ++ repeat is_digit 6)%list.
    iso_parts.
Qed.

Lemma datetime_isoformat_iso d :
  datetime_wf d -> is_iso_datetime (datetime_isoformat d) = true.
Proof.
  intros [[Hy [Hm Hd]] [Hh [Hmi [Hs Hu]]]]. simpl in *.
  unfold is_iso_datetime, datetime_isoformat, date_isoformat, time_isoformat.
  simpl t_hour. simpl t_minute. simpl t_second. simpl t_microsecond.
  simpl d_year. simpl d_month. simpl d_day.
  rewrite !format_d_fixed by (simpl; lia).
  rewrite !append_assoc.
  destruct (Z.eqb_spec (dt_microsecond d) 0) as [_|_];
    apply orb_true_iff; [left | right].
  - change (iso_date_pattern ++ [is_char "T"] ++ iso_time_pattern)%list
      with (repeat is_digit 4 ++ [is_char "-"] ++ repeat is_digit 2
            ++ [is_char "-"] ++ repeat is_digit 2 ++ [is_char "T"]
            ++ repeat is_digit 2 ++ [is_char ":"] ++ repeat is_digit 2
            ++ [is_char ":"] ++ repeat is_digit 2 ++ [])%list.
    iso_parts.
  - change (iso_date_pattern ++ [is_char "T"] ++ iso_time_pattern
            ++ iso_fraction_pattern)%list
      with (repeat is_digit 4 ++ [is_char "-"] ++ repeat is_digit 2
            ++ [is_char "-"] ++ repeat is_digit 2 ++ [is_char "T"]
            ++ repeat is_digit 2 ++ [is_char ":"] ++ repeat is_digit 2
            ++ [is_char ":"] ++ repeat is_digit 2 ++ [is_char "."]
            ++ repeat is_digit 6)%list.
    iso_parts.
Qed.

(** Dates and naive datetimes are encoded as strings of the ISO-8601
    shapes. *)
Lemma default_encodes_dates d dt :
  date_wf d -> datetime_wf dt ->
  (exists s, CustomizedEncoder_default (ODate d) = Ok (SStr s)
             /\ is_iso_date s = true)
  /\ (exists s, CustomizedEncoder_default (ODatetime dt) = Ok (SStr s)
                /\ is_iso_datetime s = true).
Proof.
  intros Hd Hdt. split; eexists; (split; [reflexivity|]).
  - now apply date_isoformat_iso.
  - now apply datetime_isoformat_iso.
Qed.

(** A duration from zero up to what [datetime.max] leaves room for is
    encoded as a string of the shape of an ISO-8601 time of day. *)
Lemma default_encodes_duration_in_range td :
  timedelta_wf td ->
  0 <= td_days td < MAXORDINAL ->
  exists s, CustomizedEncoder_default (OTimedelta td) = Ok (SStr s)
            /\ is_iso_time s = true.
Proof.
  intros [_ [Hs Hu]] Hd. unfold MAXORDINAL in Hd.
  unfold CustomizedEncoder_default. cbn [isinstance_np].
  unfold datetime_min_add, MAXORDINAL.
  destruct (Z.ltb_spec 0 (1 + td_days td)); [|lia].
  destruct (Z.leb_spec (1 + td_days td) 3652059); [|lia].
  simpl. eexists. split; [reflexivity|].
  apply time_isoformat_iso. unfold time_wf. simpl.
  pose proof (Z.div_mod (td_seconds td) 3600 ltac:(lia)).
  pose proof (Z.mod_pos_bound (td_seconds td) 3600 ltac:(lia)).
  pose proof (Z.mod_pos_bound (td_seconds td) 60 ltac:(lia)).
  pose proof (Z.div_mod (td_seconds td mod 3600) 60 ltac:(lia)).
  pose proof (Z.mod_pos_bound (td_seconds td mod 3600) 60 ltac:(lia)).
  repeat split; lia.
Qed.

(** Outside that range the sum [datetime.min + td] overflows. *)
Lemma default_raises_on_duration_out_of_range td :
  td_days td < 0 \/ MAXORDINAL <= td_days td ->
  CustomizedEncoder_default (OTimedelta td) = Raise OverflowError.
Proof.
  intros Hd. unfold MAXORDINAL in Hd.
  unfold CustomizedEncoder_default. cbn [isinstance_np].
  unfold datetime_min_add, MAXORDINAL.
  assert (E : (0 <? 1 + td_days td) && (1 + td_days td <=? 3652059) = false).
  { apply andb_false_iff.
    destruct Hd; [left; apply Z.ltb_ge | right; apply Z.leb_gt]; lia. }
  rewrite E. reflexivity.
Qed.

(** ** The numeric kinds *)

(** X14.  A numpy integer of one of the kinds named by the encoder is
    emitted as the JSON integer of the same value. *)
Lemma encoder_emits_listed_integers t n :
  In t [np_int8; np_int16; np_int32; np_int64;
        np_uint8; np_uint16; np_uint32; np_uint64] ->
  flask_json_dumps (PObj (ONumpy t (NpZ n))) = Ok (JInt n).
Proof.
  simpl. intros H. repeat destruct H as [<-|H]; try reflexivity.
  contradiction.
Qed.

(** [numpy.float64] is a builtin float and is emitted as one. *)
Lemma encoder_emits_float64 f :
  flask_json_dumps (PObj (ONumpy np_float64 (NpF f))) = Ok (JFloat f).
Proof. reflexivity. Qed.

(** An object of a type the encoder does not name fails with a
    [TypeError]. *)
Lemma encoder_rejects_other_types n :
  exists msg, flask_json_dumps (PObj (OOther n)) = Raise (TypeError msg).
Proof. eexists. reflexivity. Qed.

(** ** C2 and C8: where the encoder raises *)

(** C2.  The encoder raises on values of the closed set it is meant to
    serialize.  A half- or single-precision numpy float reaches the branch
    that calls [obj.asscalar()], a method numpy scalars do not have, and
    the encoder fails with an [AttributeError] instead of emitting a
    number; with such a value in the result of the backend, the handler
    ends with an exception and the client gets the framework's 500 page. *)
Theorem encoder_raises_on_numpy_float p :
  flask_json_dumps (PObj (ONumpy np_float32 p))
  = Raise (AttributeError "numpy.float32" "asscalar")
  /\ flask_json_dumps (PObj (ONumpy np_float16 p))
     = Raise (AttributeError "numpy.float16" "asscalar")
  /\ wsgi_app float32_backend (Request POST "/get-table" (Ok demo_body))
     = http_error_response 500 "Internal Server Error".
Proof. repeat split. Qed.

(** C8.  A negative duration is not encoded: [datetime.min + td] is out of
    range and the encoder raises [OverflowError], here for
    [timedelta(seconds=-1)], which CPython keeps as [days=-1,
    seconds=86399]; with such a value in the result of the backend, the
    handler ends with an exception. *)
Theorem encoder_raises_on_negative_duration :
  flask_json_dumps (PObj (OTimedelta (Timedelta (-1) 86399 0)))
  = Raise OverflowError
  /\ wsgi_app duration_backend (Request POST "/get-table" (Ok demo_body))
     = http_error_response 500 "Internal Server Error".
Proof. split; reflexivity. Qed.


(** ** The encoded strings, read back *)

Lemma digit_value_digit n : 0 <= n < 10 -> digit_value (digit n) = n.
Proof.
  intros H. unfold digit_value, digit.
  rewrite nat_ascii_embedding by lia. lia.
Qed.

Ltac explicit_digits :=
  rewrite !format_d_fixed by (simpl; lia);
  cbn [fixed_digits append].

Ltac read_fields :=
  unfold field; cbn [substring number_of];
  rewrite !digit_value_digit by (apply Z.mod_pos_bound; lia).

Ltac digits_ok :=
  rewrite !is_digit_digit by (apply Z.mod_pos_bound; lia).

Lemma date_round_trip d :
  date_wf d -> date_fromisoformat (date_isoformat d) = Some d.
Proof.
  intros Hd. unfold date_fromisoformat.
  rewrite (date_isoformat_iso d Hd).
  destruct Hd as [Hy [Hm Hdd]]. destruct d as [y m dd]. simpl in *.
  unfold date_isoformat. cbn [d_year d_month d_day].
  explicit_digits. read_fields.
  f_equal. f_equal; Z.div_mod_to_equations; lia.
Qed.

Ltac check_shape :=
  unfold iso_date_pattern, iso_time_pattern, iso_fraction_pattern;
  cbn [matches app];
  digits_ok;
  cbn [andb is_char Ascii.eqb Bool.eqb].


Lemma datetime_round_trip d :
  datetime_wf d ->
  datetime_fromisoformat (datetime_isoformat d) = Some d
  /\ String.length (datetime_isoformat d)
     = if dt_microsecond d =? 0 then 19%nat else 26%nat.
Proof.
  intros [[Hy [Hmo Hd]] [Hh [Hm [Hs Hu]]]].
  destruct d as [y mo dd h m s us]. simpl in *.
  unfold datetime_fromisoformat, datetime_isoformat, date_isoformat,
    time_isoformat.
  cbn [d_year d_month d_day t_hour t_minute t_second t_microsecond
       dt_year dt_month dt_day dt_hour dt_minute dt_second dt_microsecond].
  destruct (Z.eqb_spec us 0) as [E|E].
  - subst us. explicit_digits. check_shape. read_fields.
    split; [|reflexivity].
    f_equal. f_equal; Z.div_mod_to_equations; lia.
  - explicit_digits. check_shape. read_fields.
    split; [|reflexivity].
    f_equal. f_equal; Z.div_mod_to_equations; lia.
Qed.

(** * Further properties of the code *)

(** ** The header decorator *)

Lemma fold_set_header_fields hs r :
  let r' := fold_left (fun r hv => set_header (fst hv) (snd hv) r) hs r in
  status_code r' = status_code r
  /\ resp_body r' = resp_body r
  /\ mimetype r' = mimetype r.
Proof.
  revert r. induction hs as [|[k v] hs IH]; intros r; simpl; [auto|].
  destruct (IH (set_header k v r)) as [H1 [H2 H3]]. auto.
Qed.

Lemma fold_set_header_other hs r k :
  ~ In k (map fst hs) ->
  lookup k (headers (fold_left (fun r hv => set_header (fst hv) (snd hv) r)
                               hs r))
  = lookup k (headers r).
Proof.
  revert r. induction hs as [|[k' v'] hs IH]; intros r Hn; simpl in *; auto.
  rewrite IH by tauto. simpl.
  apply lookup_setitem_neq. intros E. apply Hn. now left.
Qed.

Lemma fold_set_header_given hs r k v :
  NoDup (map fst hs) -> In (k, v) hs ->
  lookup k (headers (fold_left (fun r hv => set_header (fst hv) (snd hv) r)
                               hs r))
  = Some v.
Proof.
  revert r. induction hs as [|[k' v'] hs IH]; intros r Hd Hin; simpl in *.
  - contradiction.
  - inversion Hd as [|? ? Hnot Hd']; subst.
    destruct Hin as [E|Hin].
    + inversion E; subst. rewrite fold_set_header_other by exact Hnot.
      simpl. apply lookup_setitem_eq.
    + now apply IH.
Qed.

(** X1.  [add_response_headers(headers)(f)] passes an exception of [f]
    on, fails with a [TypeError] when [f] returns [None], and otherwise
    returns the response of [f] with the same status code, body and
    content type; a header that is not among [headers] keeps its value,
    and each of [headers] (their names distinct) has the given value,
    replacing what the view had set under that name. *)
Theorem add_response_headers_spec hs f req :
  match f req with
  | Raise e => add_response_headers hs f req = Raise e
  | Ok None =>
      exists e,
        add_response_headers hs f req = Raise e /\ exc_class e = "TypeError"
  | Ok (Some r) =>
      exists resp,
        add_response_headers hs f req = Ok resp
        /\ status_code resp = status_code r
        /\ resp_body resp = resp_body r
        /\ mimetype resp = mimetype r
        /\ (forall k, ~ In k (map fst hs) ->
                      lookup k (headers resp) = lookup k (headers r))
        /\ (NoDup (map fst hs) ->
            forall k v, In (k, v) hs -> lookup k (headers resp) = Some v)
  end.
Proof.
  unfold add_response_headers. destruct (f req) as [[r|]|e]; simpl.
  - eexists. split; [reflexivity|].
    destruct (fold_set_header_fields hs r) as [H1 [H2 H3]].
    repeat split; auto.
    + intros k Hk. now apply fold_set_header_other.
    + intros Hd k v Hin. now apply fold_set_header_given.
  - eexists. split; reflexivity.
  - reflexivity.
Qed.

(** ** Status codes *)

Lemma match_request_method req ep :
  match_request req = Matched ep ->
  In (ep, req_method req)
     [ ("root", GET); ("version", GET); ("about", GET);
       ("get_table", POST); ("join", POST); ("union", POST);
       ("create_table", POST) ].
Proof.
  destruct req as [m path body]. unfold match_request, url_map.
  cbn [filter fst req_path req_method].
  repeat match goal with
         | |- context [String.eqb ?a path] =>
             destruct (String.eqb_spec a path); [subst path|]
         end;
    destruct m; simpl; intros H; inversion H; tauto.
Qed.

Lemma post_reply_status B h req resp :
  req_method req = POST ->
  endpoint B h req = Ok resp ->
  In (status_code resp) [200; 201; 500].
Proof.
  intros Hm Hr.
  destruct (endpoint_replies B h req resp Hm Hr)
    as [[e [p [_ [_ ->]]]] | [j [p [d [x [_ [_ [_ [_ ->]]]]]]]]].
  - simpl. tauto.
  - destruct h; simpl; tauto.
Qed.

(** X2.  A response that a POST handler returns has the HTTP status that
    its body gives under [status], which is 200, 201 or 500, and the
    content type [application/json]. *)
Theorem post_reply_status_matches_body B h req resp :
  req_method req = POST ->
  endpoint B h req = Ok resp ->
  exists m,
    json_body resp = Some m
    /\ lookup "status" m = Some (JInt (status_code resp))
    /\ In (status_code resp) [200; 201; 500]
    /\ mimetype resp = "application/json".
Proof.
  intros Hm Hr.
  destruct (endpoint_replies B h req resp Hm Hr)
    as [[e [p [_ [_ ->]]]] | [j [p [d [x [_ [_ [_ [_ ->]]]]]]]]].
  - exists (error_envelope e p). split; [reflexivity|].
    split; [apply lookup_error_envelope_status|].
    split; [simpl; tauto | reflexivity].
  - exists (success_envelope h x p). split; [reflexivity|].
    split; [apply lookup_success_envelope_status|].
    split; [destruct h; simpl; tauto | reflexivity].
Qed.

Lemma post_reply_status_matches_body_witness :
  exists m,
    json_body (wsgi_app demo_backend
                        (Request POST "/union" (Ok demo_body))) = Some m
    /\ lookup "status" m
       = Some (JInt (status_code
                       (wsgi_app demo_backend
                                 (Request POST "/union" (Ok demo_body)))))
    /\ In (status_code (wsgi_app demo_backend
                                 (Request POST "/union" (Ok demo_body))))
          [200; 201; 500]
    /\ mimetype (wsgi_app demo_backend
                          (Request POST "/union" (Ok demo_body)))
       = "application/json".
Proof.
  apply (post_reply_status_matches_body demo_backend EP_union
           (Request POST "/union" (Ok demo_body))); reflexivity.
Defined.

(** X3.  The reply to a request whose path is not routed has HTTP status
    200 and content type [application/json]: [page_not_found] returns the
    response of [jsonify] as it is, so the 404 is in the body only. *)
Theorem unknown_path_http_status B req :
  ~ In (req_path req) (map fst url_map) ->
  status_code (wsgi_app B req) = 200
  /\ mimetype (wsgi_app B req) = "application/json"
  /\ exists m, json_body (wsgi_app B req) = Some m
               /\ lookup "status" m = Some (JInt 404).
Proof.
  intros H. unfold wsgi_app, full_dispatch_request.
  rewrite (match_request_not_found req H).
  repeat split. eexists. split; reflexivity.
Qed.

Lemma unknown_path_http_status_witness :
  status_code (wsgi_app demo_backend (Request POST "/tables" (Ok demo_body)))
  = 200
  /\ mimetype (wsgi_app demo_backend (Request POST "/tables" (Ok demo_body)))
     = "application/json"
  /\ exists m,
       json_body (wsgi_app demo_backend
                           (Request POST "/tables" (Ok demo_body))) = Some m
       /\ lookup "status" m = Some (JInt 404).
Proof.
  apply (unknown_path_http_status demo_backend
           (Request POST "/tables" (Ok demo_body))).
  simpl. intuition discriminate.
Defined.

(** X4.  Whatever the request and the backend, the HTTP status of the
    reply is 200, 201, 302, 405 or 500: no reply has status 400 or 404. *)
Theorem http_status_codes B req :
  In (status_code (wsgi_app B req)) [200; 201; 302; 405; 500].
Proof.
  unfold wsgi_app.
  destruct (full_dispatch_request B req) as [resp|e] eqn:E;
    [|simpl; tauto].
  unfold full_dispatch_request in E.
  destruct (match_request req) as [ep| |] eqn:Em.
  - pose proof (match_request_method req ep Em) as Hm. simpl in Hm.
    repeat destruct Hm as [Hm|Hm]; try contradiction;
      inversion Hm as [[He Hmeth]]; subst ep; simpl in E.
    + unfold root, add_response_headers in E. simpl in E.
      inversion E. simpl. tauto.
    + unfold version, add_response_headers in E. simpl in E.
      inversion E. simpl. tauto.
    + unfold about, add_response_headers in E. simpl in E.
      inversion E. simpl. tauto.
    + pose proof (post_reply_status B EP_get_table req resp (eq_sym Hmeth) E)
        as H.
      simpl in *. tauto.
    + pose proof (post_reply_status B EP_join req resp (eq_sym Hmeth) E)
        as H.
      simpl in *. tauto.
    + pose proof (post_reply_status B EP_union req resp (eq_sym Hmeth) E)
        as H.
      simpl in *. tauto.
    + pose proof (post_reply_status B EP_create_table req resp (eq_sym Hmeth) E)
        as H.
      simpl in *. tauto.
  - vm_compute in E. inversion E. simpl. tauto.
  - inversion E. simpl. tauto.
Qed.

(** ** Methods *)

(** X5.  A GET, POST, PUT, DELETE or PATCH request for a routed path whose
    route does not accept that method is answered 405 by the framework,
    whatever the backend and the body: no view function runs.  (HEAD and
    OPTIONS, which Flask answers on its own, are not among the methods
    modelled.) *)
Theorem wrong_method_is_405 B req ep ms :
  lookup (req_path req) url_map = Some (ep, ms) ->
  existsb (method_eqb (req_method req)) ms = false ->
  wsgi_app B req = http_error_response 405 "Method Not Allowed".
Proof.
  destruct req as [m path body]. cbn [req_path req_method].
  unfold url_map. cbn [lookup]. intros Hl Hm.
  repeat match type of Hl with
         | context [String.eqb path ?a] =>
             destruct (String.eqb_spec path a);
             [subst path; inversion Hl; subst ep ms;
              destruct m; simpl in Hm; try discriminate; reflexivity|]
         end.
  discriminate.
Qed.

Lemma wrong_method_is_405_witness :
  wsgi_app demo_backend (Request GET "/join" (Ok demo_body))
  = http_error_response 405 "Method Not Allowed".
Proof.
  apply (wrong_method_is_405 demo_backend
           (Request GET "/join" (Ok demo_body)) "join" [POST]);
    reflexivity.
Defined.

(** X6.  The test [request.method == 'POST'] in the four handlers never
    fails under dispatch: a request reaches one of them only with the
    method POST.  Called with another method, the handler falls off its
    end, returns [None], and the header decorator fails with a
    [TypeError]. *)
Theorem post_handler_method_guard B h req :
  (match_request req
   = Matched (match h with
              | EP_get_table => "get_table"
              | EP_join => "join"
              | EP_union => "union"
              | EP_create_table => "create_table"
              end) ->
   req_method req = POST)
  /\ (req_method req <> POST ->
      endpoint_view B h req = Ok None
      /\ exists e, endpoint B h req = Raise e /\ exc_class e = "TypeError").
Proof.
  split.
  - intros Hm. apply match_request_method in Hm. simpl in Hm.
    destruct h; repeat destruct Hm as [Hm|Hm]; try contradiction;
      inversion Hm; auto.
  - intros Hm. destruct req as [m path body]. simpl in Hm.
    destruct h, m; try contradiction; split; try reflexivity;
      eexists; split; reflexivity.
Qed.

(** ** The keys of an envelope *)

Lemma has_key_setitem_iff {V} k k' (v : V) d :
  has_key k (setitem k' v d) = true <-> k = k' \/ has_key k d = true.
Proof.
  destruct (String.eqb_spec k' k) as [->|Hne].
  - rewrite has_key_setitem_eq. tauto.
  - rewrite has_key_setitem_neq by exact Hne. split; [tauto|].
    intros [E|H]; [congruence | exact H].
Qed.

(** X7.  The body of a response that a POST handler returns has no other
    keys than those of the parameters held when the reply was built (none
    when unpacking failed) and, on failure, [status] and [error_message],
    on success, [data], [success] and [status]. *)
Theorem envelope_keys_exact B h req resp :
  req_method req = POST ->
  endpoint B h req = Ok resp ->
  exists m p,
    json_body resp = Some m
    /\ (p = [] \/ exists j, get_json req = Ok j
                            /\ endpoint_params B h j = Ok p)
    /\ forall k,
         has_key k m = true
         <-> has_key k p = true
             \/ In k (if status_code resp =? 500
                      then ["status"; "error_message"]
                      else ["data"; "success"; "status"]).
Proof.
  intros Hm Hr.
  destruct (endpoint_replies B h req resp Hm Hr)
    as [[e [p [_ [Hp ->]]]] | [j [p [d [x [Hj [Hp [_ [_ ->]]]]]]]]].
  - exists (error_envelope e p), p. split; [reflexivity|]. split; [exact Hp|].
    intros k. unfold error_envelope. rewrite !has_key_setitem_iff.
    simpl. intuition congruence.
  - exists (success_envelope h x p), p. split; [reflexivity|].
    split; [right; eauto|].
    intros k.
    assert (Hs : (status_code
                    (set_header "Location" (endpoint_rule h)
                                (success_response h x p)) =? 500) = false)
      by (destruct h; reflexivity).
    rewrite Hs.
    destruct h; unfold success_envelope; rewrite !has_key_setitem_iff;
      simpl; intuition congruence.
Qed.

Lemma envelope_keys_exact_witness :
  exists m p,
    json_body (wsgi_app demo_backend
                        (Request POST "/get-table" (Ok (JObj [])))) = Some m
    /\ (p = [] \/ exists j, Ok (JObj []) = Ok j
                            /\ endpoint_params demo_backend EP_get_table j
                               = Ok p)
    /\ forall k,
         has_key k m = true
         <-> has_key k p = true
             \/ In k (if status_code
                           (wsgi_app demo_backend
                                     (Request POST "/get-table"
                                              (Ok (JObj [])))) =? 500
                      then ["status"; "error_message"]
                      else ["data"; "success"; "status"]).
Proof.
  apply (envelope_keys_exact demo_backend EP_get_table
           (Request POST "/get-table" (Ok (JObj [])))); reflexivity.
Defined.

(** X8.  POST /create-table with a JSON body that is not an object (an
    array, a string, a number, a boolean, [null], which is also what
    [get_json()] gives when no JSON was sent) is answered with the error
    envelope of the failed attribute lookup [.get], and nothing else in
    it; table creation is not attempted, the reply being the same for
    every backend. *)
Theorem create_table_rejects_non_object B req j :
  req_method req = POST ->
  get_json req = Ok j ->
  (forall m, j <> JObj m) ->
  create_table B req
  = Ok (set_header "Location" "/create-table"
          (error_response (AttributeError (py_type_name (of_json j)) "get")
                          [])).
Proof.
  intros Hm Hj Hn.
  pose proof (endpoint_reply_of B EP_create_table req Hm) as H.
  unfold reply_of, endpoint_params in H. rewrite Hj in H. simpl in H.
  destruct j; try exact H. exfalso. eapply Hn. reflexivity.
Qed.

Lemma create_table_rejects_non_object_witness :
  create_table counting_backend
               (Request POST "/create-table" (Ok (JArr [JStr "examples"])))
  = Ok (set_header "Location" "/create-table"
          (error_response (AttributeError "list" "get") [])).
Proof.
  apply (create_table_rejects_non_object counting_backend
           (Request POST "/create-table" (Ok (JArr [JStr "examples"])))
           (JArr [JStr "examples"])).
  - reflexivity.
  - reflexivity.
  - discriminate.
Defined.

(** ** The encoders on the values of a handler *)

(** X9.  A value that was parsed from the request's JSON is serialized
    back unchanged by [json.dumps] and by the app's encoder alike:
    [CustomizedEncoder.default] is not consulted for native values, at
    any depth. *)
Theorem request_values_round_trip j :
  json_dumps (of_json j) = Ok j /\ flask_json_dumps (of_json j) = Ok j.
Proof. split; apply iterencode_of_json. Qed.

Lemma json_dumps_raises_TypeError v e :
  json_dumps v = Raise e -> exc_class e = "TypeError".
Proof.
  revert e. induction v as [| | | | |l IH|d IH|o] using pyval_nested_ind;
    intros e H; try discriminate.
  - unfold json_dumps in H. rewrite iterencode_list in H.
    destruct (encode_items JSONEncoder_default l) as [js|e'] eqn:E;
      simpl in H; [discriminate|]. inversion H; subst e'. clear H.
    induction IH as [|x r Hx _ IHr]; [discriminate|].
    simpl in E. destruct (iterencode JSONEncoder_default x) as [jx|ex] eqn:Ex.
    + simpl in E.
      destruct (encode_items JSONEncoder_default r) as [jr|er];
        simpl in E; [discriminate|]. inversion E; subst er. now apply IHr.
    + simpl in E. inversion E; subst ex. now apply Hx.
  - unfold json_dumps in H. rewrite iterencode_dict in H.
    destruct (encode_members JSONEncoder_default d) as [m|e'] eqn:E;
      simpl in H; [discriminate|]. inversion H; subst e'. clear H.
    induction IH as [|[k x] r Hx _ IHr]; [discriminate|].
    simpl in E, Hx.
    destruct (iterencode JSONEncoder_default x) as [jx|ex] eqn:Ex.
    + simpl in E.
      destruct (encode_members JSONEncoder_default r) as [jr|er];
        simpl in E; [discriminate|]. inversion E; subst er. now apply IHr.
    + simpl in E. inversion E; subst ex. now apply Hx.
  - unfold json_dumps in H. simpl in H.
    destruct (as_builtin_float o); [discriminate|].
    inversion H. reflexivity.
Qed.

Lemma except_clause_raises_TypeError e md e' :
  except_clause e md = Raise e' -> exc_class e' = "TypeError".
Proof.
  unfold except_clause. cbv zeta.
  destruct (json_dumps (PDict _)) as [t|e0] eqn:E.
  - unfold getitem. rewrite lookup_setitem_neq by discriminate.
    rewrite lookup_setitem_eq. simpl. discriminate.
  - simpl. intros H. inversion H; subst e0.
    now apply json_dumps_raises_TypeError in E.
Qed.

(** X10.  When the result of the backend cannot be encoded for the
    success reply, no envelope is produced: the exception of the encoder
    is caught, the [except] clause fails on the same result, which
    [metadata] still holds under ["data"], and the handler ends with a
    [TypeError]. *)
Theorem unencodable_result_ends_in_TypeError B h req j p d e :
  req_method req = POST ->
  get_json req = Ok j ->
  endpoint_params B h j = Ok p ->
  endpoint_call B h (of_json_dict p) = Ok d ->
  endpoint_dumps h d = Raise e ->
  exists e', endpoint B h req = Raise e' /\ exc_class e' = "TypeError".
Proof.
  intros Hm Hj Hp Hc Hx.
  rewrite endpoint_unfold, (endpoint_view_nf B h req Hm).
  unfold handler_nf. rewrite Hj, Hp, Hc. cbv zeta.
  pose proof (lookup_data_finish h d (of_json_dict p)) as Hd.
  destruct (endpoint_reply_raises h d e _ Hx Hd) as [e1 ->].
  destruct (except_clause_raises h d e e1 _ Hx Hd) as [e' He'].
  rewrite He'. exists e'. split; [reflexivity|].
  now apply except_clause_raises_TypeError in He'.
Qed.

Lemma unencodable_result_ends_in_TypeError_witness :
  exists e',
    endpoint duration_backend EP_get_table
             (Request POST "/get-table" (Ok demo_body)) = Raise e'
    /\ exc_class e' = "TypeError".
Proof.
  refine (unencodable_result_ends_in_TypeError duration_backend EP_get_table
            (Request POST "/get-table" (Ok demo_body)) demo_body _ _
            OverflowError _ _ _ _ _); reflexivity.
Defined.

(** ** The encoder on single objects *)

(** X11.  A duration is encoded exactly when its [days] are between 0 and
    3652058, and then the encoding does not depend on them: two durations
    with the same seconds and microseconds get the same string. *)
Theorem duration_encoding_range :
  (forall td,
      (exists s, CustomizedEncoder_default (OTimedelta td) = Ok s)
      <-> 0 <= td_days td < MAXORDINAL)
  /\ (forall td days',
         0 <= td_days td < MAXORDINAL ->
         0 <= days' < MAXORDINAL ->
         CustomizedEncoder_default
           (OTimedelta (Timedelta days' (td_seconds td) (td_microseconds td)))
         = CustomizedEncoder_default (OTimedelta td)).
Proof.
  assert (Hin : forall td,
             0 <= td_days td < MAXORDINAL ->
             CustomizedEncoder_default (OTimedelta td)
             = Ok (SStr (time_isoformat
                           (Time (td_seconds td / 3600)
                                 (td_seconds td mod 3600 / 60)
                                 (td_seconds td mod 60)
                                 (td_microseconds td))))).
  { intros td Hd. unfold MAXORDINAL in Hd.
    unfold CustomizedEncoder_default. cbn [isinstance_np].
    unfold datetime_min_add, MAXORDINAL.
    assert (E : (0 <? 1 + td_days td) && (1 + td_days td <=? 3652059) = true).
    { apply andb_true_iff. split; [apply Z.ltb_lt | apply Z.leb_le]; lia. }
    rewrite E. reflexivity. }
  split.
  - intros td. split.
    + intros [s Hs].
      destruct (Z_lt_dec (td_days td) 0) as [Hneg|Hpos].
      * rewrite default_raises_on_duration_out_of_range in Hs by (left; lia).
        discriminate.
      * destruct (Z_lt_dec (td_days td) MAXORDINAL) as [Hlt|Hge]; [lia|].
        rewrite default_raises_on_duration_out_of_range in Hs by (right; lia).
        discriminate.
    + intros Hd. eexists. now apply Hin.
  - intros td days' Hd Hd'. rewrite (Hin td Hd).
    now rewrite (Hin (Timedelta days' _ _) Hd').
Qed.

Lemma encoder_emits_listed_integers_witness :
  flask_json_dumps (PObj (ONumpy np_uint16 (NpZ 65535))) = Ok (JInt 65535).
Proof.
  apply (encoder_emits_listed_integers np_uint16 65535).
  simpl. tauto.
Defined.

(** X15.  An object that [default] has no branch for (a numpy scalar of a
    type in neither tuple, such as [numpy.bool_] or [numpy.longdouble], or
    an object of any other class) is rejected with a [TypeError]. *)
Theorem encoder_rejects_unnamed_objects o :
  named_by_encoder o = false ->
  exists e, flask_json_dumps (PObj o) = Raise e /\ exc_class e = "TypeError".
Proof.
  unfold named_by_encoder. intros H.
  apply orb_false_iff in H. destruct H as [H H3].
  apply orb_false_iff in H. destruct H as [H1 H2].
  unfold flask_json_dumps. cbn [iterencode].
  assert (Hf : as_builtin_float o = None).
  { destruct o as [t p| | | |]; try reflexivity.
    destruct t; try reflexivity. simpl in H2. discriminate. }
  rewrite Hf. unfold CustomizedEncoder_default. rewrite H1, H2.
  destruct o; try discriminate; eexists; split; reflexivity.
Qed.

Lemma encoder_rejects_unnamed_objects_witness :
  exists e,
    flask_json_dumps (PObj (ONumpy np_bool_ (NpB true))) = Raise e
    /\ exc_class e = "TypeError".
Proof.
  apply (encoder_rejects_unnamed_objects (ONumpy np_bool_ (NpB true))).
  reflexivity.
Defined.

(** ** What a reply tells about the run *)

(** X16.  A POST handler replies with a status other than 500 only when
    unpacking, the backend call and the encoding of its result all
    succeeded; the body then holds the encoded result under [data], with
    [success=true]. *)
Theorem success_reply_only_on_success B h req resp :
  req_method req = POST ->
  endpoint B h req = Ok resp ->
  status_code resp <> 500 ->
  exists j p d x m,
    get_json req = Ok j
    /\ endpoint_params B h j = Ok p
    /\ endpoint_call B h (of_json_dict p) = Ok d
    /\ endpoint_dumps h d = Ok x
    /\ json_body resp = Some m
    /\ lookup "data" m = Some x
    /\ lookup "success" m = Some (JBool true).
Proof.
  intros Hm Hr Hs.
  destruct (endpoint_replies B h req resp Hm Hr)
    as [[e [p [_ [_ ->]]]] | [j [p [d [x [Hj [Hp [Hc [Hx ->]]]]]]]]].
  - exfalso. apply Hs. reflexivity.
  - exists j, p, d, x, (success_envelope h x p).
    repeat split; auto.
    + apply lookup_success_envelope_data.
    + apply lookup_success_envelope_success.
Qed.

Lemma success_reply_only_on_success_witness :
  exists j p d x m,
    Ok demo_body = Ok j
    /\ endpoint_params demo_backend EP_join j = Ok p
    /\ endpoint_call demo_backend EP_join (of_json_dict p) = Ok d
    /\ endpoint_dumps EP_join d = Ok x
    /\ json_body ((wsgi_app demo_backend (Request POST "/join" (Ok demo_body)))) = Some m
    /\ lookup "data" m = Some x
    /\ lookup "success" m = Some (JBool true).
Proof.
  apply (success_reply_only_on_success demo_backend EP_join
           (Request POST "/join" (Ok demo_body)) (wsgi_app demo_backend (Request POST "/join" (Ok demo_body)))).
  - reflexivity.
  - reflexivity.
  - discriminate.
Defined.

(** X17.  A POST handler replies with status 500 only after an exception
    raised while the request was unpacked or the backend was called, and
    the body reports that exception: [error_message] is its [str].  An
    exception of the encoder never shows up in an envelope. *)
Theorem error_envelope_only_after_exception B h req resp :
  req_method req = POST ->
  endpoint B h req = Ok resp ->
  status_code resp = 500 ->
  exists e m,
    raised_before_reply B h req e
    /\ json_body resp = Some m
    /\ lookup "error_message" m = Some (JStr (str e)).
Proof.
  intros Hm Hr Hs.
  destruct (endpoint_replies B h req resp Hm Hr)
    as [[e [p [He [_ ->]]]] | [j [p [d [x [_ [_ [_ [_ ->]]]]]]]]].
  - exists e, (error_envelope e p). repeat split; auto.
    apply lookup_error_envelope_message.
  - exfalso. destruct h; discriminate.
Qed.

Lemma error_envelope_only_after_exception_witness :
  exists e m,
    raised_before_reply demo_backend EP_union
                        (Request POST "/union" (Ok (JObj []))) e
    /\ json_body (wsgi_app demo_backend
                           (Request POST "/union" (Ok (JObj [])))) = Some m
    /\ lookup "error_message" m = Some (JStr (str e)).
Proof.
  apply (error_envelope_only_after_exception demo_backend EP_union
           (Request POST "/union" (Ok (JObj [])))); reflexivity.
Defined.

(** X18.  The reply of a POST handler (or the exception it ends with)
    depends on the backend only through two values: what the handler's own
    unpacking function returns for the request's JSON, and what the
    handler's own operation returns for the parameters so obtained.  Two
    backends that agree on these two values get the same reply, however
    they differ elsewhere. *)
Theorem reply_depends_on_two_backend_values B B' h req :
  req_method req = POST ->
  (forall j, get_json req = Ok j ->
             endpoint_unpack B' h j = endpoint_unpack B h j) ->
  (forall j p, get_json req = Ok j ->
               endpoint_params B h j = Ok p ->
               endpoint_call B' h (of_json_dict p)
               = endpoint_call B h (of_json_dict p)) ->
  endpoint B' h req = endpoint B h req.
Proof.
  intros Hm Hu Hc.
  rewrite !endpoint_unfold, !endpoint_view_nf by exact Hm.
  f_equal. unfold handler_nf.
  destruct (get_json req) as [j|e]; [|reflexivity].
  assert (Hp : endpoint_params B' h j = endpoint_params B h j).
  { unfold endpoint_params. now rewrite (Hu j eq_refl). }
  rewrite Hp.
  destruct (endpoint_params B h j) as [p|e] eqn:Ep; [|reflexivity].
  now rewrite (Hc j p eq_refl Ep).
Qed.

Lemma reply_depends_on_two_backend_values_witness :
  endpoint counting_backend EP_get_table
           (Request POST "/get-table" (Ok demo_body))
  = endpoint demo_backend EP_get_table
             (Request POST "/get-table" (Ok demo_body)).
Proof.
  apply (reply_depends_on_two_backend_values demo_backend counting_backend
           EP_get_table (Request POST "/get-table" (Ok demo_body)));
    reflexivity.
Defined.

(** ** The temporal encodings, read back *)

(** X12.  For every valid date and naive datetime, [default] returns the
    ISO-8601 string of that very value: a string of the shape
    [YYYY-MM-DD], resp. [YYYY-MM-DDThh:mm:ss] followed by a six-digit
    fraction exactly when the microseconds are not zero (19 or 26
    characters), whose fields read back give the value encoded. *)
Theorem dates_encode_to_their_iso_string d dt :
  date_wf d -> datetime_wf dt ->
  (exists s,
      CustomizedEncoder_default (ODate d) = Ok (SStr s)
      /\ is_iso_date s = true
      /\ date_fromisoformat s = Some d)
  /\ (exists s,
         CustomizedEncoder_default (ODatetime dt) = Ok (SStr s)
         /\ is_iso_datetime s = true
         /\ datetime_fromisoformat s = Some dt
         /\ String.length s
            = if dt_microsecond dt =? 0 then 19%nat else 26%nat).
Proof.
  intros Hd Hdt. split.
  - exists (date_isoformat d). split; [reflexivity|].
    split; [now apply date_isoformat_iso | now apply date_round_trip].
  - exists (datetime_isoformat dt). split; [reflexivity|].
    split; [now apply datetime_isoformat_iso|].
    now apply datetime_round_trip.
Qed.

Lemma dates_encode_to_their_iso_string_witness :
  (exists s,
      CustomizedEncoder_default (ODate (Date 2018 5 17)) = Ok (SStr s)
      /\ is_iso_date s = true
      /\ date_fromisoformat s = Some (Date 2018 5 17))
  /\ (exists s,
         CustomizedEncoder_default
           (ODatetime (Datetime 2018 5 17 9 30 0 125000)) = Ok (SStr s)
         /\ is_iso_datetime s = true
         /\ datetime_fromisoformat s
            = Some (Datetime 2018 5 17 9 30 0 125000)
         /\ String.length s = 26%nat).
Proof.
  apply (dates_encode_to_their_iso_string (Date 2018 5 17)
           (Datetime 2018 5 17 9 30 0 125000));
    unfold datetime_wf, date_wf, time_wf; simpl; lia.
Defined.


